(** * Review scraper: a shallow embedding of [review_scraper/scraper.py]

    The embedding follows the Python source function by function.  The
    browser (Playwright), the Unicode case tables of the Python runtime, the
    regular-expression engine and [dateutil] are not part of the repository:
    the browser is an explicit environment (what every call made by the
    scraper answers), the three library functions are section variables.
    Printing and navigation are recorded in an event log, exceptions that
    leave a scraper are an exit status of the run. *)

From Stdlib Require Import ZArith NArith List String Ascii Lia Bool.
From Stdlib Require Import Decimal DecimalString.
From Stdlib Require DecimalPos DecimalZ Finite.
Import ListNotations.

Local Open Scope string_scope.
Local Open Scope list_scope.

(* ================================================================== *)
(** ** Python strings *)
(* ================================================================== *)

Module PyStr.

(** A Python [str] is a sequence of Unicode code points. *)
Definition pystr : Type := list N.

(** The literals of the source are ASCII. *)
Definition lit (s : string) : pystr := map N_of_ascii (list_ascii_of_string s).

(** Truth value of a string: [if t:]. *)
Definition truthy (s : pystr) : bool :=
  match s with
  | [] => false
  | _ :: _ => true
  end.

(** Truth value of an optional value that is a string when present:
    [if body], [if rating]. *)
Definition truthy_opt (o : option pystr) : bool :=
  match o with
  | None => false
  | Some s => truthy s
  end.

(** [len(s)]. *)
Definition len (s : pystr) : nat := List.length s.

(** The code points [str.strip()] removes (CPython's [Py_UNICODE_ISSPACE]). *)
Definition py_isspace (c : N) : bool :=
  ((9 <=? c) && (c <=? 13) || (28 <=? c) && (c <=? 32)
   || (c =? 133) || (c =? 160) || (c =? 5760)
   || (8192 <=? c) && (c <=? 8202)
   || (c =? 8232) || (c =? 8233) || (c =? 8239) || (c =? 8287)
   || (c =? 12288))%N.

Fixpoint lstrip (s : pystr) : pystr :=
  match s with
  | [] => []
  | c :: rest => if py_isspace c then lstrip rest else s
  end.

Definition rstrip (s : pystr) : pystr := List.rev (lstrip (List.rev s)).

(** [s.strip()]. *)
Definition strip (s : pystr) : pystr := rstrip (lstrip s).

(** [s.startswith(p)]. *)
Fixpoint prefixb (p s : pystr) : bool :=
  match p, s with
  | [], _ => true
  | _ :: _, [] => false
  | a :: p', b :: s' => (a =? b)%N && prefixb p' s'
  end.

(** [p in s] on strings: substring search. *)
Fixpoint contains (p s : pystr) : bool :=
  prefixb p s ||
  match s with
  | [] => false
  | _ :: s' => contains p s'
  end.

(** The specification of [in]: [p] occurs in [s]. *)
Definition occurs (p s : pystr) : Prop :=
  exists pre post, s = pre ++ p ++ post.

Definition is_ascii (c : N) : bool := (c <? 128)%N.

(** Lower-casing of an ASCII code point: [A-Z] to [a-z], others unchanged. *)
Definition ascii_lower (c : N) : N :=
  if ((65 <=? c) && (c <=? 90))%N then (c + 32)%N else c.

(** [v] spells [p] up to the case of ASCII letters. *)
Definition any_case_of (p v : pystr) : Prop :=
  Forall (fun c => is_ascii c = true) v /\ map ascii_lower v = map ascii_lower p.

(** [str(n)] for an integer. *)
Definition str_of_int (n : Z) : pystr := lit (NilZero.string_of_int (Z.to_int n)).

(** ["%0wd" % n] for a natural number: decimal digits, padded with zeros on
    the left up to width [w]. *)
Definition zero_padded (w n : nat) : pystr :=
  let digits := lit (NilZero.string_of_uint (Nat.to_uint n)) in
  repeat 48%N (w - List.length digits) ++ digits.

Section Lower.

  (** The lower-casing of a code point outside ASCII, given the text before
      and after it (CPython's [lower_ucs4]: the Unicode tables, and the rule
      for a final capital sigma, which looks at the context). *)
Variable lower_nonascii : pystr -> N -> pystr -> pystr.

Fixpoint lower_from (before s : pystr) : pystr :=
    match s with
    | [] => []
    | c :: rest =>
        (if is_ascii c then [ascii_lower c] else lower_nonascii before c rest)
        ++ lower_from (before ++ [c]) rest
    end.

  (** [s.lower()]. *)
Definition lower (s : pystr) : pystr := lower_from [] s.

End Lower.

End PyStr.

Import PyStr.

(* ================================================================== *)
(** ** Calendar dates *)
(* ================================================================== *)

Module PyDate.

(** [datetime.date]: compared as the triple (year, month, day). *)
Record date : Type := mkdate { year : nat; month : nat; day : nat }.

Definition compare (a b : date) : comparison :=
  match Nat.compare (year a) (year b) with
  | Eq =>
      match Nat.compare (month a) (month b) with
      | Eq => Nat.compare (day a) (day b)
      | c => c
      end
  | c => c
  end.

(** [a < b]. *)
Definition ltb (a b : date) : bool :=
  match compare a b with
  | Lt => true
  | _ => false
  end.

(** [a <= b]. *)
Definition leb (a b : date) : bool :=
  match compare a b with
  | Gt => false
  | _ => true
  end.

(** [d.isoformat()]: YYYY-MM-DD. *)
Definition isoformat (d : date) : pystr :=
  zero_padded 4 (year d) ++ lit "-" ++ zero_padded 2 (month d) ++ lit "-"
  ++ zero_padded 2 (day d).

End PyDate.

(** [in_range(d, start_d, end_d)]:
    [d is not None and start_d <= d <= end_d]. *)
Definition in_range (d : option PyDate.date) (start_d end_d : PyDate.date) : bool :=
  match d with
  | None => false
  | Some d' => PyDate.leb start_d d' && PyDate.leb d' end_d
  end.

(* ================================================================== *)
(** ** The browser, as the scraper sees it *)
(* ================================================================== *)

Module Browser.

(** The [wait_until] argument of [page.goto]. *)
Inductive WaitUntil : Type := DomContentLoaded | Load.

(** What a [page.goto] call does: it returns, raises
    [PlaywrightTimeoutError], or raises another exception. *)
Inductive NavOutcome : Type := NavOk | NavTimeout | NavError.

(** A review container ([cards.nth(i)]).  Every call the scraper makes on it
    answers by selector; [None] stands for a raised exception (no such
    element within the timeout, detached node, ...). *)
Record Card : Type := mkCard {
  (** [card.locator(sel).first.inner_text(timeout=...)] *)
  inner_text : string -> option pystr;
  (** [card.locator(sel).first.count()] *)
  first_count : string -> option nat;
  (** [card.locator(sel).first.get_attribute(name)]: the attribute may be
      absent (Python [None], the inner option). *)
  get_attribute : string -> string -> option (option pystr)
}.

(** What the browser shows for one URL.  The calls [page.content()] and
    [cards.count()] are taken to return; the containers do not change
    while a page is processed. *)
Record PageView : Type := mkPageView {
  (** [page.goto(url, timeout=60000, wait_until=w)] *)
  goto : WaitUntil -> NavOutcome;
  (** [page.locator(sel).count()], [None] when it raises *)
  locator_count : string -> option nat;
  (** [page.content()] *)
  content : pystr;
  (** the elements [page.locator(sel)] matches, in document order *)
  locator_all : string -> list Card
}.

(** The web: a view per URL.  Every URL is visited at most once in a run. *)
Definition Web : Type := pystr -> PageView.

End Browser.

Import Browser.

(* ================================================================== *)
(** ** Records, events and runs *)
(* ================================================================== *)

(** The dictionary appended to [collected]. *)
Record ReviewRecord : Type := mkReview {
  source : pystr;
  title : pystr;
  review : pystr;
  date : pystr;
  rating : option pystr
}.

Inductive Site : Type := SiteG2 | SiteTrustRadius.

(** What a run prints and the navigations it asks for, in order. *)
Inductive Event : Type :=
| Fetching (site : Site) (page_no : Z) (url : pystr)
| Goto (url : pystr) (w : WaitUntil)
| RetryNotice
| BlockedNotice
| NoContainersNotice (page_no : Z)
| OldNotice.

(** How the pagination loop of a run ends.  The source keeps no stop-reason
    variable: the reason is the exit taken.
    - [MAX_PAGES]: the [for] loop ran through [range(1, max_pages + 1)];
    - [BLOCKED]: the [break] under [if detect_blocked(html)];
    - [NO_CONTAINERS]: the [break] under [if not found_any]
      (in [scrape_trustradius]: under [if cards.count() == 0]);
    - [DATE_BOUNDARY]: the [break] under [if stop_due_to_old];
    - [NAV_ERROR]: an exception of [page.goto] left the function. *)
Inductive Exit : Type :=
| MAX_PAGES | BLOCKED | NO_CONTAINERS | DATE_BOUNDARY | NAV_ERROR.

(** The state of a pagination loop. *)
Record LoopState : Type := mkState {
  stop_due_to_old : bool;
  collected : list ReviewRecord;
  log : list Event
}.

(** A finished run. *)
Record Run : Type := mkRun {
  final : LoopState;
  exit : Exit
}.

(** What the caller receives: the list, unless an exception propagated. *)
Definition returned (r : Run) : option (list ReviewRecord) :=
  match exit r with
  | NAV_ERROR => None
  | _ => Some (collected (final r))
  end.

(** [range(lo, hi)]. *)
Definition py_range (lo hi : Z) : list Z :=
  map (fun i => (lo + Z.of_nat i)%Z) (seq 0 (Z.to_nat (hi - lo))).

Definition say (e : list Event) (st : LoopState) : LoopState :=
  mkState (stop_due_to_old st) (collected st) (log st ++ e).

(* ================================================================== *)
(** ** The scraper *)
(* ================================================================== *)

(** Selectors and phrases of the source, in the order of the source. *)

Definition needles : list string :=
  [ "captcha"; "Access Denied"; "unusual traffic"; "verify you are human";
    "robot"; "blocked"; "Cloudflare"; "Please enable cookies" ].

Definition candidate_waits : list string :=
  [ "div.paper"; "div[data-testid*='review']"; "article";
    "[itemprop='review']"; "div[class*='review']" ].

Definition g2_cards_selector : string :=
  "div.paper, article, [itemprop='review'], div[data-testid*='review'], div[class*='review']".

Definition g2_body_selectors : list string :=
  [ "div[itemprop='reviewBody']"; "[data-testid*='review-text']";
    "div[class*='reviewBody']"; "div[class*='review-body']"; "p" ].

Definition g2_date_selectors : list string :=
  [ "time"; "span:has-text('Reviewed on')"; "div:has-text('Reviewed on')" ].

Definition g2_rating_selectors : list string :=
  [ "span[itemprop='ratingValue']"; "meta[itemprop='ratingValue']" ].

Definition tr_cards_selector : string :=
  "article, div.review, [data-testid*='review']".

Definition tr_body_selectors : list string :=
  [ "p"; "div[class*='review']"; "div[class*='content']" ].

Definition tr_date_selectors : list string :=
  [ "time"; "span:has-text(', 20')"; "div:has-text(', 20')" ].

(** The cap on the containers processed on a page: [min(cards.count(), 60)]. *)
Definition card_cap : nat := 60.

(** [--max_pages] of [main]: [default=10]. *)
Definition default_max_pages : Z := 10.

(** The test of the body chain: [if t and len(t) > 20]. *)
Definition body_ok (t : pystr) : bool := truthy t && Nat.ltb 20 (len t).

(** The body chain: the first selector whose stripped text passes
    [body_ok]; an exception moves on to the next selector. *)
Fixpoint first_body (card : Card) (sels : list string) : option pystr :=
  match sels with
  | [] => None
  | sel :: rest =>
      match inner_text card sel with
      | Some raw =>
          let t := strip raw in
          if body_ok t then Some t else first_body card rest
      | None => first_body card rest
      end
  end.

(** The date-text chain: the first selector with a non-empty stripped text. *)
Fixpoint first_text (card : Card) (sels : list string) : option pystr :=
  match sels with
  | [] => None
  | sel :: rest =>
      match inner_text card sel with
      | Some raw =>
          let t := strip raw in
          if truthy t then Some t else first_text card rest
      | None => first_text card rest
      end
  end.

(** [date_text or ""]. *)
Definition or_empty (o : option pystr) : pystr :=
  match o with
  | Some t => if truthy t then t else []
  | None => []
  end.

(** The string of an optional value, read under a guard that found it
    present ([body] under [if body and ...]). *)
Definition present (o : option pystr) : pystr :=
  match o with
  | Some t => t
  | None => []
  end.

(** The title: the stripped text of the first [h3], [""] on an exception. *)
Definition card_title (card : Card) : pystr :=
  match inner_text card "h3" with
  | Some raw => strip raw
  | None => []
  end.

(** The rating chain of [scrape_g2].  [rating] keeps the last value
    assigned, also a false one, when the loop runs out of selectors. *)
Fixpoint rating_chain (card : Card) (sels : list string)
    (rating : option pystr) : option pystr :=
  match sels with
  | [] => rating
  | sel :: rest =>
      match first_count card sel with
      | None => rating_chain card rest rating
      | Some 0 => rating_chain card rest rating
      | Some (S _) =>
          let got :=
            if contains (lit "meta") (lit sel)
            then get_attribute card sel "content"
            else option_map (fun raw => Some (strip raw)) (inner_text card sel) in
          match got with
          | None => rating_chain card rest rating
          | Some r => if truthy_opt r then r else rating_chain card rest r
          end
      end
  end.

(** The probe for a review container: the first selector of
    [candidate_waits] with a positive count sets [found_any]. *)
Fixpoint probe (view : PageView) (sels : list string) : bool :=
  match sels with
  | [] => false
  | sel :: rest =>
      match locator_count view sel with
      | Some (S _) => true
      | _ => probe view rest
      end
  end.

(** The URL of a page: the bare listing for page 1. *)
Definition page_url (base : pystr) (page_no : Z) : pystr :=
  if (page_no =? 1)%Z then base else base ++ lit "?page=" ++ str_of_int page_no.

(** The containers a page loop processes: [cards.nth(i)] for [i] in
    [range(min(cards.count(), 60))]. *)
Definition processed (cards : list Card) : list Card :=
  firstn (Nat.min (List.length cards) card_cap) cards.

(** [scrape_capterra]: the placeholder. *)
Definition scrape_capterra (company_id : pystr) (start_d end_d : PyDate.date)
    (debug_html headless : bool) (slow_mo : Z) : list ReviewRecord := [].

Section Scraper.

  (** Python's Unicode lower-casing outside ASCII (see [PyStr.lower]). *)
Variable lower_nonascii : pystr -> N -> pystr -> pystr.

  (** [re.sub(r"Reviewed on\s+", "", s, flags=re.IGNORECASE)]. *)
Variable re_sub_reviewed_on : pystr -> pystr.

  (** [dateutil.parser.parse(s, fuzzy=True).date()], [None] when it raises. *)
Variable dateutil_parse : pystr -> option PyDate.date.

  (** The web the run browses. *)
Variable web : Web.

  (** [detect_blocked(html)]. *)
Definition detect_blocked (html : pystr) : bool :=
    let low := lower lower_nonascii html in
    existsb (fun n => contains (lower lower_nonascii (lit n)) low) needles.

  (** [parse_any_date(text)]. *)
Definition parse_any_date (text : pystr) : option PyDate.date :=
    if truthy text
    then dateutil_parse (strip (re_sub_reviewed_on (strip text)))
    else None.

  (** The parsed date of a container, by the date selectors of the site. *)
Definition card_date (sels : list string) (card : Card) : option PyDate.date :=
    parse_any_date (or_empty (first_text card sels)).

  (** [if d and d < start_d]. *)
Definition older (d : option PyDate.date) (start_d : PyDate.date) : bool :=
    match d with
    | Some d' => PyDate.ltb d' start_d
    | None => false
    end.

  (** [d.isoformat()] under the guard [in_range(d, ...)], where [d] is a date. *)
Definition iso (d : option PyDate.date) : pystr :=
    match d with
    | Some d' => PyDate.isoformat d'
    | None => []
    end.

Section Window.

Variables start_d end_d : PyDate.date.

    (** *** G2 *)

    (** The body of [for i in range(card_count)] in [scrape_g2]. *)
Definition g2_card (st : LoopState) (card : Card) : LoopState :=
      let body := first_body card g2_body_selectors in
      let d := card_date g2_date_selectors card in
      if older d start_d
      then mkState true (collected st) (log st)
      else
        let title := card_title card in
        let rating := rating_chain card g2_rating_selectors None in
        if truthy_opt body && in_range d start_d end_d
        then mkState (stop_due_to_old st)
               (collected st ++
                [mkReview (lit "G2") title (present body) (iso d) rating])
               (log st)
        else st.

    (** Navigation in [scrape_g2]: a timeout of the first [goto] is caught
        and followed by one [goto] that waits for [load]; nothing catches
        what that one raises, or another exception of the first.  The
        result tells whether the page was reached. *)
Definition g2_navigate (url : pystr) (st : LoopState) : LoopState * bool :=
      let st1 := say [Goto url DomContentLoaded] st in
      match goto (web url) DomContentLoaded with
      | NavOk => (st1, true)
      | NavError => (st1, false)
      | NavTimeout =>
          let st2 := say [RetryNotice; Goto url Load] st1 in
          match goto (web url) Load with
          | NavOk => (st2, true)
          | _ => (st2, false)
          end
      end.

    (** One iteration of [for page_no in range(1, max_pages + 1)] in
        [scrape_g2]; [Some e] when the iteration leaves the loop. *)
Definition g2_page (base : pystr) (page_no : Z) (st : LoopState)
      : LoopState * option Exit :=
      let url := page_url base page_no in
      let (st1, reached) := g2_navigate url (say [Fetching SiteG2 page_no url] st) in
      if reached then
        let found_any := probe (web url) candidate_waits in
        let html := content (web url) in
        if detect_blocked html
        then (say [BlockedNotice] st1, Some BLOCKED)
        else if negb found_any
        then (say [NoContainersNotice page_no] st1, Some NO_CONTAINERS)
        else
          let cards := locator_all (web url) g2_cards_selector in
          let st2 := fold_left g2_card (processed cards) st1 in
          if stop_due_to_old st2
          then (say [OldNotice] st2, Some DATE_BOUNDARY)
          else (st2, None)
      else (st1, Some NAV_ERROR).

    (** *** TrustRadius *)

    (** The body of [for i in range(card_count)] in [scrape_trustradius]. *)
Definition tr_card (st : LoopState) (card : Card) : LoopState :=
      let body := first_body card tr_body_selectors in
      let d := card_date tr_date_selectors card in
      if truthy_opt body && in_range d start_d end_d
      then
        let title := card_title card in
        mkState (stop_due_to_old st)
          (collected st ++
           [mkReview (lit "TrustRadius") title (present body) (iso d) None])
          (log st)
      else st.

    (** One iteration of the page loop of [scrape_trustradius]: a single
        [goto], outside any [try]. *)
Definition tr_page (base : pystr) (page_no : Z) (st : LoopState)
      : LoopState * option Exit :=
      let url := page_url base page_no in
      let st1 := say [Fetching SiteTrustRadius page_no url; Goto url DomContentLoaded] st in
      match goto (web url) DomContentLoaded with
      | NavOk =>
          let cards := locator_all (web url) tr_cards_selector in
          match cards with
          | [] => (st1, Some NO_CONTAINERS)
          | _ :: _ => (fold_left tr_card (processed cards) st1, None)
          end
      | _ => (st1, Some NAV_ERROR)
      end.

    (** *** The page loop *)

    (** [for page_no in pages: ...], for either page body. *)
Fixpoint page_loop (page : Z -> LoopState -> LoopState * option Exit)
        (pages : list Z) (st : LoopState) : Run :=
      match pages with
      | [] => mkRun st MAX_PAGES
      | page_no :: rest =>
          match page page_no st with
          | (st', Some e) => mkRun st' e
          | (st', None) => page_loop page rest st'
          end
      end.

Definition initial : LoopState := mkState false [] [].

    (** [scrape_g2(company_slug, start_d, end_d, max_pages, debug_html,
        headless, slow_mo)]. *)
Definition scrape_g2 (company_slug : pystr) (max_pages : Z)
        (debug_html headless : bool) (slow_mo : Z) : Run :=
      let base := lit "https://www.g2.com/products/" ++ company_slug ++ lit "/reviews" in
      page_loop (g2_page base) (py_range 1 (max_pages + 1)) initial.

    (** [scrape_trustradius(product_slug, start_d, end_d, max_pages,
        debug_html, headless, slow_mo)]. *)
Definition scrape_trustradius (product_slug : pystr) (max_pages : Z)
        (debug_html headless : bool) (slow_mo : Z) : Run :=
      let base := lit "https://www.trustradius.com/products/" ++ product_slug ++ lit "/reviews" in
      page_loop (tr_page base) (py_range 1 (max_pages + 1)) initial.

End Window.

End Scraper.

(* ================================================================== *)
(** ** Concrete scenarios *)
(* ================================================================== *)

Module Scenario.

(** Library behaviour on the ASCII texts of the scenarios: lower-casing
    never meets a code point outside ASCII, the texts carry no
    "Reviewed on" prefix, and a date is written YYYY-MM-DD. *)

Definition plain_lower : pystr -> N -> pystr -> pystr := fun _ c _ => [c].

Definition no_prefix : pystr -> pystr := fun s => s.

Definition digit (c : N) : option nat :=
  if ((48 <=? c) && (c <=? 57))%N then Some (N.to_nat (c - 48)) else None.

Fixpoint number (acc : nat) (s : pystr) : option nat :=
  match s with
  | [] => Some acc
  | c :: rest =>
      match digit c with
      | Some k => number (10 * acc + k) rest
      | None => None
      end
  end.

Definition parse_iso (s : pystr) : option PyDate.date :=
  match s with
  | [y1; y2; y3; y4; 45%N; m1; m2; 45%N; d1; d2] =>
      match number 0 [y1; y2; y3; y4], number 0 [m1; m2], number 0 [d1; d2] with
      | Some y, Some m, Some d => Some (PyDate.mkdate y m d)
      | _, _, _ => None
      end
  | _ => None
  end.

(** A container with a paragraph and a [time] element, nothing else. *)
Definition text_card (body when : string) : Card :=
  mkCard
    (fun sel =>
       if String.eqb sel "p" then Some (lit body)
       else if String.eqb sel "time" then Some (lit when)
       else None)
    (fun _ => Some 0)
    (fun _ _ => None).

(** A page that loads at once and shows the given containers, matched by
    every container selector. *)
Definition listing (html : string) (cards : list Card) : PageView :=
  mkPageView (fun _ => NavOk) (fun _ => Some (List.length cards)) (lit html)
    (fun _ => cards).

Definition paged (p1 p2 p3 : PageView) : Web :=
  fun url =>
    if contains (lit "?page=2") url then p2
    else if contains (lit "?page=3") url then p3
    else p1.

Definition jan_1 : PyDate.date := PyDate.mkdate 2024 1 1.
Definition mar_31 : PyDate.date := PyDate.mkdate 2024 3 31.

Definition card_mar_10 : Card :=
  text_card "Great tool, it saved our team many hours." "2024-03-10".
Definition card_feb_01 : Card :=
  text_card "Solid product with a few rough edges here and there." "2024-02-01".
Definition card_dec_15 : Card :=
  text_card "We used it last year and it was fine overall." "2023-12-15".
Definition card_nov_02 : Card :=
  text_card "An early version, much has changed since then." "2023-11-02".
Definition card_apr_20 : Card :=
  text_card "Brand new release, first impressions are good." "2024-04-20".
Definition card_undated : Card :=
  text_card "A long enough review body without a usable date." "some time ago".

(** Three pages in descending date order; the first review older than the
    window is on page 2. *)
Definition descending : Web :=
  paged (listing "<html>reviews</html>" [card_mar_10; card_feb_01])
        (listing "<html>reviews</html>" [card_dec_15])
        (listing "<html>reviews</html>" [card_nov_02]).

(** A page later than the window first, then the window. *)
Definition newer_first : Web :=
  paged (listing "<html>reviews</html>" [card_apr_20])
        (listing "<html>reviews</html>" [card_mar_10])
        (listing "<html>reviews</html>" []).

(** An interstitial: block markup and no review container. *)
Definition denied_page : PageView :=
  mkPageView (fun _ => NavOk) (fun _ => Some 0)
    (lit "<html><h1>Access Denied</h1></html>") (fun _ => []).

Definition denied : Web := fun _ => denied_page.

(** A page whose first navigation times out and whose second one loads. *)
Definition slow_page : PageView :=
  mkPageView
    (fun w => match w with DomContentLoaded => NavTimeout | Load => NavOk end)
    (fun _ => Some 1) (lit "<html>reviews</html>") (fun _ => [card_mar_10]).

Definition slow : Web := fun _ => slow_page.

(** A page that never loads. *)
Definition dead_page : PageView :=
  mkPageView (fun _ => NavTimeout) (fun _ => Some 0) [] (fun _ => []).

Definition dead : Web := fun _ => dead_page.

(** A text of exactly twenty characters. *)
Definition twenty : pystr := lit "Works well for us ok".

Definition slug : pystr := lit "slack".

End Scenario.

(** The page numbers a run announced, in order. *)
Fixpoint fetched (l : list Event) : list Z :=
  match l with
  | [] => []
  | Fetching _ page_no _ :: rest => page_no :: fetched rest
  | _ :: rest => fetched rest
  end.

(** The navigations a run asked for, in order. *)
Fixpoint gotos (l : list Event) : list (pystr * WaitUntil) :=
  match l with
  | [] => []
  | Goto url w :: rest => (url, w) :: gotos rest
  | _ :: rest => gotos rest
  end.

(** Whether the navigation of [scrape_g2] reaches a page: at once, or by
    the retry after a timeout. *)
Definition g2_reaches (view : PageView) : bool :=
  match goto view DomContentLoaded with
  | NavOk => true
  | NavError => false
  | NavTimeout =>
      match goto view Load with
      | NavOk => true
      | _ => false
      end
  end.

(** The records a G2 container contributes. *)
Definition g2_emit (re_sub_reviewed_on : pystr -> pystr)
    (dateutil_parse : pystr -> option PyDate.date)
    (start_d end_d : PyDate.date) (card : Card) : list ReviewRecord :=
  collected (g2_card re_sub_reviewed_on dateutil_parse start_d end_d
               (mkState false [] []) card).

(** The records a TrustRadius container contributes. *)
Definition tr_emit (re_sub_reviewed_on : pystr -> pystr)
    (dateutil_parse : pystr -> option PyDate.date)
    (start_d end_d : PyDate.date) (card : Card) : list ReviewRecord :=
  collected (tr_card re_sub_reviewed_on dateutil_parse start_d end_d
               (mkState false [] []) card).

(** A run stays within its page budget: it announces the pages 1, 2, ...
    up to some [k] not above [max_pages], and holds at most [card_cap]
    records per announced page. *)
Definition bounded_run (max_pages : Z) (r : Run) : Prop :=
  exists k,
    k <= Z.to_nat max_pages
    /\ fetched (log (final r)) = map Z.of_nat (seq 1 k)
    /\ List.length (collected (final r)) <= card_cap * k
    /\ List.length (collected (final r)) <= card_cap * Z.to_nat max_pages.

(** A record's date is the ISO text of a date of the window. *)
Definition dated_within (start_d end_d : PyDate.date) (r : ReviewRecord) : Prop :=
  exists d, date r = PyDate.isoformat d
            /\ PyDate.leb start_d d = true /\ PyDate.leb d end_d = true.

(* ================================================================== *)
(** ** The rest of the source *)
(* ================================================================== *)

(** The records a G2 page contributes: those of its processed containers
    when the page was reached, is not blocked and showed a container. *)
Definition g2_page_records (lower_nonascii : pystr -> N -> pystr -> pystr)
    (re_sub_reviewed_on : pystr -> pystr)
    (dateutil_parse : pystr -> option PyDate.date) (web : Web)
    (start_d end_d : PyDate.date) (base : pystr) (page_no : Z)
  : list ReviewRecord :=
  let view := web (page_url base page_no) in
  if g2_reaches view && negb (detect_blocked lower_nonascii (content view))
     && probe view candidate_waits
  then flat_map (g2_emit re_sub_reviewed_on dateutil_parse start_d end_d)
         (processed (locator_all view g2_cards_selector))
  else [].

(** The records a TrustRadius page contributes. *)
Definition tr_page_records (re_sub_reviewed_on : pystr -> pystr)
    (dateutil_parse : pystr -> option PyDate.date) (web : Web)
    (start_d end_d : PyDate.date) (base : pystr) (page_no : Z)
  : list ReviewRecord :=
  let view := web (page_url base page_no) in
  match goto view DomContentLoaded with
  | NavOk =>
      flat_map (tr_emit re_sub_reviewed_on dateutil_parse start_d end_d)
        (processed (locator_all view tr_cards_selector))
  | _ => []
  end.

(** A date in the range of [datetime.date] fields (a valid date has
    [1 <= year <= 9999], [1 <= month <= 12] and a day of that month). *)
Definition date_fields_ok (d : PyDate.date) : Prop :=
  (Z.of_nat (PyDate.year d) <= 9999)%Z
  /\ PyDate.month d <= 12 /\ PyDate.day d <= 31.

(** The candidate fails the test of the body chain: the lookup raised, or
    the stripped text is empty or not longer than 20. *)
Definition no_body (card : Card) (sel : string) : Prop :=
  match inner_text card sel with
  | Some raw => body_ok (strip raw) = false
  | None => True
  end.

(** The candidate gives no date text: the lookup raised, or the stripped
    text is empty. *)
Definition no_text (card : Card) (sel : string) : Prop :=
  match inner_text card sel with
  | Some raw => truthy (strip raw) = false
  | None => True
  end.

(** The notices a run printed about why it stops, in order. *)
Fixpoint stop_notices (l : list Event) : list Event :=
  match l with
  | [] => []
  | BlockedNotice :: rest => BlockedNotice :: stop_notices rest
  | NoContainersNotice n :: rest => NoContainersNotice n :: stop_notices rest
  | OldNotice :: rest => OldNotice :: stop_notices rest
  | _ :: rest => stop_notices rest
  end.

(** *** Cookie banners *)

Module Cookies.

(** The buttons of a page, by selector: [page.locator(sel).count()]
    ([None] when it raises) and whether [loc.first.click(timeout=1500)]
    returns ([false]: it raises). *)
Record Buttons : Type := mkButtons {
  button_count : string -> option nat;
  click : string -> bool
}.

(** What [accept_cookies_if_present] does to the page, in order. *)
Inductive Action : Type :=
| Click (sel : string) (clicked : bool)
| Pause.

Definition candidates : list string :=
  [ "button:has-text('Accept all')"; "button:has-text('Accept All')";
    "button:has-text('Accept')"; "button:has-text('I Agree')";
    "button:has-text('Agree')"; "button:has-text('OK')";
    "button:has-text('Got it')"; "button:has-text('Allow all')" ].

(** [for sel in candidates: try: ... except Exception: pass]: a click that
    returns is followed by [human_sleep] and [break]; an exception of
    [count] or of [click] moves on to the next candidate. *)
Fixpoint accept_from (page : Buttons) (sels : list string) : list Action :=
  match sels with
  | [] => []
  | sel :: rest =>
      match button_count page sel with
      | Some (S _) =>
          if click page sel then [Click sel true; Pause]
          else Click sel false :: accept_from page rest
      | _ => accept_from page rest
      end
  end.

(** [accept_cookies_if_present(page)]. *)
Definition accept_cookies_if_present (page : Buttons) : list Action :=
  accept_from page candidates.

(** The selectors whose click returned. *)
Fixpoint clicked (l : list Action) : list string :=
  match l with
  | [] => []
  | Click sel true :: rest => sel :: clicked rest
  | _ :: rest => clicked rest
  end.

(** A candidate that cannot be clicked: no such button was counted, or its
    click raises. *)
Definition unclickable (page : Buttons) (sel : string) : Prop :=
  match button_count page sel with
  | Some (S _) => click page sel = false
  | _ => True
  end.

(** The selectors on which a click was tried. *)
Fixpoint tried (l : list Action) : list string :=
  match l with
  | [] => []
  | Click sel _ :: rest => sel :: tried rest
  | _ :: rest => tried rest
  end.

End Cookies.

(** *** The command line *)

Module Cli.

(** [--source], one of the [choices]. *)
Inductive SourceChoice : Type := g2 | capterra | trustradius.

(** [str] of a source choice. *)
Definition source_name (s : SourceChoice) : pystr :=
  match s with
  | g2 => lit "g2"
  | capterra => lit "capterra"
  | trustradius => lit "trustradius"
  end.

(** The namespace [parser.parse_args()] returns. *)
Record Args : Type := mkArgs {
  company : pystr;
  start_date : pystr;
  end_date : pystr;
  source : SourceChoice;
  max_pages : Z;
  debug_html : Z;
  headless : Z;
  slow_mo : Z
}.

(** What is at the path "output" when the program starts. *)
Inductive PathKind : Type := Missing | NotDirectory | Directory.

(** [ensure_output_dir()]: [None] is [sys.exit(1)], after the error
    message; otherwise "output" is a directory afterwards ([os.makedirs]
    with [exist_ok=True] is taken to succeed). *)
Definition ensure_output_dir (output : PathKind) : option PathKind :=
  match output with
  | NotDirectory => None
  | Missing | Directory => Some Directory
  end.

(** How [main] ends. *)
Inductive Outcome : Type :=
| BadDate
| ExitOne
| Propagated (events : list Event)
| WriteFailed (output_file : pystr) (events : list Event)
| Saved (output_file : pystr) (data : list ReviewRecord) (events : list Event).

(** [bool(n)] for an integer. *)
Definition bool_of_int (n : Z) : bool := negb (n =? 0)%Z.

(** [f"output/{args.company}_{args.source}_reviews.json"]. *)
Definition output_file (args : Args) : pystr :=
  lit "output/" ++ company args ++ lit "_" ++ source_name (source args)
  ++ lit "_reviews.json".

Section Main.

Variable lower_nonascii : pystr -> N -> pystr -> pystr.
Variable re_sub_reviewed_on : pystr -> pystr.
Variable dateutil_parse : pystr -> option PyDate.date.

(** [datetime.strptime(s, "%Y-%m-%d").date()], [None] when it raises. *)
Variable strptime_ymd : pystr -> option PyDate.date.

(** Whether [open(path, "w")] and the dump succeed. *)
Variable can_write : pystr -> bool.

Variable web : Web.

(** The branch on [args.source]: the run of the adapter, the placeholder
    being a run that ends at once. *)
Definition dispatch (args : Args) (start_d end_d : PyDate.date) : Run :=
  let debug := bool_of_int (debug_html args) in
  let head := bool_of_int (headless args) in
  match source args with
  | g2 =>
      scrape_g2 lower_nonascii re_sub_reviewed_on dateutil_parse web
        start_d end_d (company args) (max_pages args) debug head (slow_mo args)
  | trustradius =>
      scrape_trustradius re_sub_reviewed_on dateutil_parse web
        start_d end_d (company args) (max_pages args) debug head (slow_mo args)
  | capterra =>
      mkRun (mkState false
               (scrape_capterra (company args) start_d end_d debug head (slow_mo args))
               [])
        MAX_PAGES
  end.

(** [main()], after the arguments are parsed. *)
Definition main (args : Args) (output : PathKind) : Outcome :=
  match strptime_ymd (start_date args) with
  | None => BadDate
  | Some start_d =>
      match strptime_ymd (end_date args) with
      | None => BadDate
      | Some end_d =>
          match ensure_output_dir output with
          | None => ExitOne
          | Some _ =>
              let run := dispatch args start_d end_d in
              match returned run with
              | None => Propagated (log (final run))
              | Some data =>
                  if can_write (output_file args)
                  then Saved (output_file args) data (log (final run))
                  else WriteFailed (output_file args) (log (final run))
              end
          end
      end
  end.

End Main.

End Cli.

(* ================================================================== *)
(** ** Strings: substring search and lower-casing *)
(* ================================================================== *)

Lemma prefixb_spec (p s : pystr) :
  prefixb p s = true <-> exists post, s = p ++ post.
Proof.
  revert s; induction p as [|a p IH]; intros s; simpl.
  - split; [intros _; now exists s | reflexivity].
  - destruct s as [|b s].
    + split; [discriminate | intros [post H]; discriminate].
    + rewrite andb_true_iff, N.eqb_eq, IH. split.
      * intros [-> [post ->]]. now exists post.
      * intros [post H]. injection H as -> ->. split; [reflexivity | now exists post].
Qed.

Lemma contains_occurs (p s : pystr) :
  contains p s = true <-> occurs p s.
Proof.
  unfold occurs. induction s as [|b s IH].
  - simpl. rewrite orb_false_r, prefixb_spec. split.
    + intros [post H]. now exists [], post.
    + intros [pre [post H]]. destruct pre; [now exists post | discriminate].
  - cbn [contains]. rewrite orb_true_iff, prefixb_spec, IH. split.
    + intros [[post H] | [pre [post H]]].
      * now exists [], post.
      * exists (b :: pre), post. now rewrite H.
    + intros [[|c pre] [post H]].
      * left. now exists post.
      * right. injection H as _ H. now exists pre, post.
Qed.

Lemma lower_from_skip ln (pre s before : pystr) :
  exists x, lower_from ln before (pre ++ s) = x ++ lower_from ln (before ++ pre) s.
Proof.
  revert before; induction pre as [|c pre IH]; intros before.
  - exists []. now rewrite app_nil_r.
  - destruct (IH (before ++ [c])) as [x Hx].
    change ((c :: pre) ++ s) with (c :: pre ++ s).
    change (lower_from ln before (c :: pre ++ s))
      with ((if is_ascii c then [ascii_lower c]
             else ln before c (pre ++ s))
            ++ lower_from ln (before ++ [c]) (pre ++ s)).
    rewrite Hx, <- (app_assoc before [c] pre), app_assoc.
    eexists. reflexivity.
Qed.

Lemma lower_from_ascii ln (v post before : pystr) :
  Forall (fun c => is_ascii c = true) v ->
  lower_from ln before (v ++ post)
  = map ascii_lower v ++ lower_from ln (before ++ v) post.
Proof.
  intros Hv; revert before; induction Hv as [|c v Hc _ IH]; intros before.
  - now rewrite app_nil_r.
  - change ((c :: v) ++ post) with (c :: v ++ post).
    change (lower_from ln before (c :: v ++ post))
      with ((if is_ascii c then [ascii_lower c]
             else ln before c (v ++ post))
            ++ lower_from ln (before ++ [c]) (v ++ post)).
    rewrite Hc, IH, <- (app_assoc before [c] v). reflexivity.
Qed.

Lemma lower_ascii ln (v : pystr) :
  Forall (fun c => is_ascii c = true) v -> lower ln v = map ascii_lower v.
Proof.
  intros Hv. unfold lower.
  rewrite <- (app_nil_r v) at 1. rewrite (lower_from_ascii ln v [] [] Hv).
  apply app_nil_r.
Qed.

Lemma lower_occurs ln (v html : pystr) :
  Forall (fun c => is_ascii c = true) v ->
  occurs v html -> occurs (map ascii_lower v) (lower ln html).
Proof.
  intros Hv [pre [post ->]]. unfold lower.
  destruct (lower_from_skip ln pre (v ++ post) []) as [x ->].
  rewrite (lower_from_ascii ln v post _ Hv).
  now exists x, (lower_from ln ([] ++ pre ++ v) post).
Qed.

Lemma needles_ascii (n : string) :
  In n needles -> Forall (fun c => is_ascii c = true) (lit n).
Proof.
  intros H. apply Forall_forall. intros c Hc.
  assert (Hall : forallb is_ascii (lit n) = true).
  { cbv [needles In] in H.
    repeat (destruct H as [<- | H]; [vm_compute; reflexivity|]).
    contradiction. }
  rewrite forallb_forall in Hall. now apply Hall.
Qed.

Lemma detect_blocked_iff ln (html : pystr) :
  detect_blocked ln html = true <->
  exists n, In n needles /\ occurs (lower ln (lit n)) (lower ln html).
Proof.
  unfold detect_blocked. rewrite existsb_exists.
  split; intros [n [Hin H]]; exists n; split; auto; now apply contains_occurs.
Qed.

Lemma detect_blocked_any_case ln (html : pystr) (n : string) (v : pystr) :
  In n needles -> any_case_of (lit n) v -> occurs v html ->
  detect_blocked ln html = true.
Proof.
  intros Hin [Hv Heq] Hocc. apply detect_blocked_iff. exists n. split; [assumption|].
  rewrite (lower_ascii ln (lit n) (needles_ascii n Hin)), <- Heq.
  now apply lower_occurs.
Qed.

Lemma occurs_in_lowered (x s : pystr) :
  occurs x (map ascii_lower s) ->
  exists v, occurs v s /\ map ascii_lower v = x.
Proof.
  intros [pre [post H]].
  apply map_eq_app in H. destruct H as [pre' [tl [-> [_ H]]]].
  apply map_eq_app in H. destruct H as [v [post' [-> [Hv _]]]].
  exists v. split; [now exists pre', post' | exact Hv].
Qed.

Lemma detect_blocked_ascii_none ln (html : pystr) :
  Forall (fun c => is_ascii c = true) html ->
  (forall n v, In n needles -> any_case_of (lit n) v -> ~ occurs v html) ->
  detect_blocked ln html = false.
Proof.
  intros Hascii Hnone. destruct (detect_blocked ln html) eqn:E; [|reflexivity].
  apply detect_blocked_iff in E. destruct E as [n [Hin Hocc]].
  rewrite (lower_ascii ln (lit n) (needles_ascii n Hin)) in Hocc.
  rewrite (lower_ascii ln html Hascii) in Hocc.
  apply occurs_in_lowered in Hocc. destruct Hocc as [v [Hv Heq]].
  exfalso. apply (Hnone n v Hin); [|exact Hv].
  split; [|exact Heq].
  destruct Hv as [pre [post ->]].
  apply Forall_app in Hascii. destruct Hascii as [_ H].
  apply Forall_app in H. now destruct H.
Qed.

(** C6.  [detect_blocked] is a function of the markup alone; it answers
    true exactly when the lower-cased text of some phrase of [needles]
    occurs in the lower-cased markup.  So markup in which a phrase of the
    list, "unusual traffic" in particular, occurs in any letter case is
    blocked, and markup in which no phrase occurs is not; for ASCII markup
    the latter reads: no spelling of a phrase, in any case, occurs. *)
Theorem detect_blocked_case_insensitive :
  forall (lower_nonascii : pystr -> N -> pystr -> pystr) (html : pystr),
    (detect_blocked lower_nonascii html = true <->
       exists n, In n needles /\
         occurs (lower lower_nonascii (lit n)) (lower lower_nonascii html))
    /\ (forall n v, In n needles -> any_case_of (lit n) v -> occurs v html ->
          detect_blocked lower_nonascii html = true)
    /\ (forall v, any_case_of (lit "unusual traffic") v -> occurs v html ->
          detect_blocked lower_nonascii html = true)
    /\ ((forall n, In n needles ->
           ~ occurs (lower lower_nonascii (lit n)) (lower lower_nonascii html)) ->
        detect_blocked lower_nonascii html = false)
    /\ (Forall (fun c => is_ascii c = true) html ->
        (forall n v, In n needles -> any_case_of (lit n) v -> ~ occurs v html) ->
        detect_blocked lower_nonascii html = false).
Proof.
  intros ln html. split; [apply detect_blocked_iff|].
  split; [intros n v; apply detect_blocked_any_case|].
  split; [|split; [|apply detect_blocked_ascii_none]].
  - intros v. apply detect_blocked_any_case. cbv [needles In]. tauto.
  - intros Hnone. destruct (detect_blocked ln html) eqn:E; [|reflexivity].
    apply detect_blocked_iff in E. destruct E as [n [Hin Hocc]].
    exfalso. exact (Hnone n Hin Hocc).
Qed.

Lemma detect_blocked_case_insensitive_witness :
  any_case_of (lit "unusual traffic") (lit "UNUSUAL Traffic")
  /\ occurs (lit "UNUSUAL Traffic") (lit "<p>We saw UNUSUAL Traffic here</p>")
  /\ detect_blocked Scenario.plain_lower
       (lit "<p>We saw UNUSUAL Traffic here</p>") = true.
Proof.
  assert (Hcase : any_case_of (lit "unusual traffic") (lit "UNUSUAL Traffic")).
  { split; [repeat constructor | reflexivity]. }
  assert (Hocc : occurs (lit "UNUSUAL Traffic")
                   (lit "<p>We saw UNUSUAL Traffic here</p>")).
  { exists (lit "<p>We saw "), (lit " here</p>"). reflexivity. }
  split; [exact Hcase|]. split; [exact Hocc|].
  exact (proj1 (proj2 (proj2 (detect_blocked_case_insensitive
                                Scenario.plain_lower _))) _ Hcase Hocc).
Defined.

(* ================================================================== *)
(** ** Dates *)
(* ================================================================== *)

Ltac by_date_order :=
  unfold PyDate.ltb, PyDate.leb, PyDate.compare in *;
  repeat match goal with
         | H : context [Nat.compare ?a ?b] |- _ => destruct (Nat.compare_spec a b)
         | |- context [Nat.compare ?a ?b] => destruct (Nat.compare_spec a b)
         end;
  try congruence; try lia.

Lemma later_is_not_older (start_d end_d d : PyDate.date) :
  PyDate.leb start_d end_d = true -> PyDate.ltb end_d d = true ->
  PyDate.ltb d start_d = false.
Proof. intros H1 H2. by_date_order. Qed.

Lemma later_is_out (end_d d : PyDate.date) :
  PyDate.ltb end_d d = true -> PyDate.leb d end_d = false.
Proof. intros H. by_date_order. Qed.

Lemma older_is_out (start_d d : PyDate.date) :
  PyDate.ltb d start_d = true -> PyDate.leb start_d d = false.
Proof. intros H. by_date_order. Qed.

Lemma in_range_spec (d : option PyDate.date) (start_d end_d : PyDate.date) :
  in_range d start_d end_d = true <->
  exists d', d = Some d' /\ PyDate.leb start_d d' = true /\ PyDate.leb d' end_d = true.
Proof.
  destruct d as [d'|]; simpl.
  - rewrite andb_true_iff. split.
    + intros [H1 H2]. now exists d'.
    + intros [x [Hx H]]. now injection Hx as ->.
  - split; [discriminate | intros [x [Hx _]]; discriminate].
Qed.

(* ================================================================== *)
(** ** The extraction pipeline *)
(* ================================================================== *)

Lemma body_ok_spec (t : pystr) : body_ok t = true <-> 21 <= len t.
Proof.
  unfold body_ok, len. rewrite andb_true_iff, Nat.ltb_lt. split.
  - intros [_ H]. lia.
  - intros H. split; [|lia]. destruct t; [simpl in H; lia | reflexivity].
Qed.

Lemma first_body_ok (card : Card) (sels : list string) (b : pystr) :
  first_body card sels = Some b -> body_ok b = true.
Proof.
  induction sels as [|sel rest IH]; simpl; [discriminate|].
  destruct (inner_text card sel) as [raw|]; [|exact IH].
  destruct (body_ok (strip raw)) eqn:E; [|exact IH].
  intros H. now injection H as <-.
Qed.

Section Cards.

Variable re_sub_reviewed_on : pystr -> pystr.
Variable dateutil_parse : pystr -> option PyDate.date.
Variables start_d end_d : PyDate.date.

Local Abbreviation card_date' := (card_date re_sub_reviewed_on dateutil_parse).
Local Abbreviation g2_card' := (g2_card re_sub_reviewed_on dateutil_parse start_d end_d).
Local Abbreviation tr_card' := (tr_card re_sub_reviewed_on dateutil_parse start_d end_d).
Local Abbreviation g2_emit' := (g2_emit re_sub_reviewed_on dateutil_parse start_d end_d).
Local Abbreviation tr_emit' := (tr_emit re_sub_reviewed_on dateutil_parse start_d end_d).

Lemma g2_card_log st card : log (g2_card' st card) = log st.
  Proof.
    unfold g2_card.
    destruct (older _ _); [reflexivity|].
    destruct (truthy_opt _ && in_range _ _ _); reflexivity.
  Qed.

Lemma g2_card_collected st card :
    collected (g2_card' st card) = collected st ++ g2_emit' card.
  Proof.
    unfold g2_emit, g2_card.
    destruct (older _ _); simpl; [now rewrite app_nil_r|].
    destruct (truthy_opt _ && in_range _ _ _); simpl;
      [reflexivity | now rewrite app_nil_r].
  Qed.

Lemma g2_card_flag st card :
    stop_due_to_old (g2_card' st card)
    = stop_due_to_old st || older (card_date' g2_date_selectors card) start_d.
  Proof.
    unfold g2_card.
    destruct (older _ _); simpl; [now rewrite orb_true_r|].
    destruct (truthy_opt _ && in_range _ _ _); simpl; now rewrite orb_false_r.
  Qed.

  (** What a G2 container contributes: nothing, or one record made of its
      accepted body and its parsed date, which is in the window. *)
Lemma g2_emit_cases card :
    g2_emit' card = [] \/
    exists b d,
      first_body card g2_body_selectors = Some b
      /\ card_date' g2_date_selectors card = Some d
      /\ PyDate.ltb d start_d = false
      /\ PyDate.leb start_d d = true /\ PyDate.leb d end_d = true
      /\ g2_emit' card
         = [mkReview (lit "G2") (card_title card) b (PyDate.isoformat d)
              (rating_chain card g2_rating_selectors None)].
  Proof.
    unfold g2_emit, g2_card.
    destruct (older _ _) eqn:Eold; [now left|].
    destruct (truthy_opt _ && in_range _ _ _) eqn:E; [|now left].
    right. apply andb_true_iff in E. destruct E as [Eb Er].
    apply in_range_spec in Er. destruct Er as [d [Hd [H1 H2]]].
    destruct (first_body card g2_body_selectors) as [b|] eqn:Hb; [|discriminate].
    exists b, d. rewrite Hd in *. simpl in Eold. simpl. auto 10.
  Qed.

Lemma g2_emit_undated card :
    card_date' g2_date_selectors card = None -> g2_emit' card = [].
  Proof.
    intros H. destruct (g2_emit_cases card) as [E | [b [d [_ [Hd _]]]]];
      [exact E | congruence].
  Qed.

Lemma g2_emit_older card d :
    card_date' g2_date_selectors card = Some d ->
    PyDate.ltb d start_d = true -> g2_emit' card = [].
  Proof.
    intros H Hlt. destruct (g2_emit_cases card) as [E | [b [d' [_ [Hd [Hn _]]]]]];
      [exact E | congruence].
  Qed.

Lemma g2_emit_later card d :
    card_date' g2_date_selectors card = Some d ->
    PyDate.ltb end_d d = true -> g2_emit' card = [].
  Proof.
    intros H Hlt.
    destruct (g2_emit_cases card) as [E | [b [d' [_ [Hd [_ [_ [Hle _]]]]]]]];
      [exact E|].
    rewrite H in Hd. injection Hd as <-.
    rewrite (later_is_out _ _ Hlt) in Hle. discriminate.
  Qed.

Lemma tr_card_log st card : log (tr_card' st card) = log st.
  Proof.
    unfold tr_card. destruct (truthy_opt _ && in_range _ _ _); reflexivity.
  Qed.

Lemma tr_card_flag st card :
    stop_due_to_old (tr_card' st card) = stop_due_to_old st.
  Proof.
    unfold tr_card. destruct (truthy_opt _ && in_range _ _ _); reflexivity.
  Qed.

Lemma tr_card_collected st card :
    collected (tr_card' st card) = collected st ++ tr_emit' card.
  Proof.
    unfold tr_emit, tr_card.
    destruct (truthy_opt _ && in_range _ _ _); simpl;
      [reflexivity | now rewrite app_nil_r].
  Qed.

  (** What a TrustRadius container contributes. *)
Lemma tr_emit_cases card :
    tr_emit' card = [] \/
    exists b d,
      first_body card tr_body_selectors = Some b
      /\ card_date' tr_date_selectors card = Some d
      /\ PyDate.leb start_d d = true /\ PyDate.leb d end_d = true
      /\ tr_emit' card
         = [mkReview (lit "TrustRadius") (card_title card) b
              (PyDate.isoformat d) None].
  Proof.
    unfold tr_emit, tr_card.
    destruct (truthy_opt _ && in_range _ _ _) eqn:E; [|now left].
    right. apply andb_true_iff in E. destruct E as [Eb Er].
    apply in_range_spec in Er. destruct Er as [d [Hd [H1 H2]]].
    destruct (first_body card tr_body_selectors) as [b|] eqn:Hb; [|discriminate].
    exists b, d. rewrite Hd in *. simpl. auto 10.
  Qed.

Lemma tr_emit_undated card :
    card_date' tr_date_selectors card = None -> tr_emit' card = [].
  Proof.
    intros H. destruct (tr_emit_cases card) as [E | [b [d [_ [Hd _]]]]];
      [exact E | congruence].
  Qed.

Lemma tr_emit_older card d :
    card_date' tr_date_selectors card = Some d ->
    PyDate.ltb d start_d = true -> tr_emit' card = [].
  Proof.
    intros H Hlt.
    destruct (tr_emit_cases card) as [E | [b [d' [_ [Hd [Hle _]]]]]]; [exact E|].
    rewrite H in Hd. injection Hd as <-.
    rewrite (older_is_out _ _ Hlt) in Hle. discriminate.
  Qed.

  (** The container loops. *)

Lemma g2_cards_log cards st : log (fold_left g2_card' cards st) = log st.
  Proof.
    revert st; induction cards as [|c cards IH]; intros st; simpl; [reflexivity|].
    now rewrite IH, g2_card_log.
  Qed.

Lemma g2_cards_collected cards st :
    collected (fold_left g2_card' cards st)
    = collected st ++ flat_map g2_emit' cards.
  Proof.
    revert st; induction cards as [|c cards IH]; intros st; simpl.
    - now rewrite app_nil_r.
    - now rewrite IH, g2_card_collected, <- app_assoc.
  Qed.

Lemma g2_cards_flag cards st :
    stop_due_to_old (fold_left g2_card' cards st)
    = stop_due_to_old st
      || existsb (fun c => older (card_date' g2_date_selectors c) start_d) cards.
  Proof.
    revert st; induction cards as [|c cards IH]; intros st; simpl.
    - now rewrite orb_false_r.
    - now rewrite IH, g2_card_flag, orb_assoc.
  Qed.

Lemma tr_cards_log cards st : log (fold_left tr_card' cards st) = log st.
  Proof.
    revert st; induction cards as [|c cards IH]; intros st; simpl; [reflexivity|].
    now rewrite IH, tr_card_log.
  Qed.

Lemma tr_cards_flag cards st :
    stop_due_to_old (fold_left tr_card' cards st) = stop_due_to_old st.
  Proof.
    revert st; induction cards as [|c cards IH]; intros st; simpl; [reflexivity|].
    now rewrite IH, tr_card_flag.
  Qed.

Lemma tr_cards_collected cards st :
    collected (fold_left tr_card' cards st)
    = collected st ++ flat_map tr_emit' cards.
  Proof.
    revert st; induction cards as [|c cards IH]; intros st; simpl.
    - now rewrite app_nil_r.
    - now rewrite IH, tr_card_collected, <- app_assoc.
  Qed.

Lemma g2_emit_short card : List.length (g2_emit' card) <= 1.
  Proof.
    destruct (g2_emit_cases card) as [-> | [b [d [_ [_ [_ [_ [_ ->]]]]]]]];
      simpl; lia.
  Qed.

Lemma tr_emit_short card : List.length (tr_emit' card) <= 1.
  Proof.
    destruct (tr_emit_cases card) as [-> | [b [d [_ [_ [_ [_ ->]]]]]]];
      simpl; lia.
  Qed.

End Cards.

Lemma flat_map_short {A B} (f : A -> list B) (l : list A) :
  (forall a, List.length (f a) <= 1) ->
  List.length (flat_map f l) <= List.length l.
Proof.
  intros Hf. induction l as [|a l IH]; simpl; [lia|].
  rewrite length_app. specialize (Hf a). lia.
Qed.

Lemma processed_capped (cards : list Card) :
  List.length (processed cards) <= card_cap.
Proof.
  unfold processed. rewrite length_firstn. lia.
Qed.

Lemma processed_incl (cards : list Card) (c : Card) :
  In c (processed cards) -> In c cards.
Proof.
  unfold processed. revert cards.
  generalize card_cap as k. intros k cards.
  generalize (Nat.min (List.length cards) k) as m. intros m.
  revert cards; induction m as [|m IH]; intros cards; simpl; [tauto|].
  destruct cards as [|x cards]; simpl; [tauto|].
  intros [H | H]; [now left | right; now apply IH].
Qed.

Lemma fetched_app (l1 l2 : list Event) :
  fetched (l1 ++ l2) = fetched l1 ++ fetched l2.
Proof.
  induction l1 as [|e l1 IH]; simpl; [reflexivity|].
  destruct e; simpl; now rewrite IH.
Qed.

Lemma gotos_app (l1 l2 : list Event) :
  gotos (l1 ++ l2) = gotos l1 ++ gotos l2.
Proof.
  induction l1 as [|e l1 IH]; simpl; [reflexivity|].
  destruct e; simpl; now rewrite IH.
Qed.

(* ================================================================== *)
(** ** The page loop *)
(* ================================================================== *)

Lemma py_range_pages (max_pages : Z) :
  py_range 1 (max_pages + 1) = map Z.of_nat (seq 1 (Z.to_nat max_pages)).
Proof.
  unfold py_range. replace (max_pages + 1 - 1)%Z with max_pages by lia.
  generalize (Z.to_nat max_pages) as k. intros k.
  rewrite <- seq_shift, map_map. apply map_ext. intros i. lia.
Qed.

Lemma py_range_length (max_pages : Z) :
  List.length (py_range 1 (max_pages + 1)) = Z.to_nat max_pages.
Proof. rewrite py_range_pages, length_map, length_seq. reflexivity. Qed.

(** A loop over pages each of which announces itself once and appends at
    most [card_cap] records satisfying [P]: after [k] pages, a prefix of
    the range, the loop is over, with at most [card_cap * k] records more. *)
Lemma page_loop_adds (P : ReviewRecord -> Prop)
    (page : Z -> LoopState -> LoopState * option Exit) :
  (forall n st, exists added,
      collected (fst (page n st)) = collected st ++ added
      /\ Forall P added /\ List.length added <= card_cap
      /\ fetched (log (fst (page n st))) = fetched (log st) ++ [n]) ->
  forall pages st, exists k added,
      k <= List.length pages
      /\ collected (final (page_loop page pages st)) = collected st ++ added
      /\ Forall P added /\ List.length added <= card_cap * k
      /\ fetched (log (final (page_loop page pages st)))
         = fetched (log st) ++ firstn k pages.
Proof.
  intros Hpage pages. induction pages as [|n rest IH]; intros st.
  - exists 0, []. simpl. rewrite !app_nil_r. repeat split; auto; lia.
  - destruct (Hpage n st) as [added1 [Hc [HP [Hlen Hf]]]].
    cbn [page_loop]. destruct (page n st) as [st' [e|]]; cbn [fst] in *.
    + exists 1, added1. cbn [final firstn List.length].
      repeat split; auto; lia.
    + destruct (IH st') as [k [added2 [Hk [Hc2 [HP2 [Hlen2 Hf2]]]]]].
      exists (S k), (added1 ++ added2). cbn [firstn List.length].
      rewrite Hc2, Hc, Hf2, Hf, <- !app_assoc, length_app.
      repeat split; auto; try lia.
      now apply Forall_app.
Qed.

Section Pages.

Variable lower_nonascii : pystr -> N -> pystr -> pystr.
Variable re_sub_reviewed_on : pystr -> pystr.
Variable dateutil_parse : pystr -> option PyDate.date.
Variable web : Web.
Variables start_d end_d : PyDate.date.

Local Abbreviation card_date' := (card_date re_sub_reviewed_on dateutil_parse).
Local Abbreviation g2_card' := (g2_card re_sub_reviewed_on dateutil_parse start_d end_d).
Local Abbreviation g2_emit' := (g2_emit re_sub_reviewed_on dateutil_parse start_d end_d).
Local Abbreviation tr_emit' := (tr_emit re_sub_reviewed_on dateutil_parse start_d end_d).
Local Abbreviation g2_page' :=
  (g2_page lower_nonascii re_sub_reviewed_on dateutil_parse web start_d end_d).
Local Abbreviation tr_page' :=
  (tr_page re_sub_reviewed_on dateutil_parse web start_d end_d).

Lemma g2_navigate_reaches url st :
  snd (g2_navigate web url st) = g2_reaches (web url).
Proof.
  unfold g2_navigate, g2_reaches.
  destruct (goto (web url) DomContentLoaded); try reflexivity.
  destruct (goto (web url) Load); reflexivity.
Qed.

Lemma g2_navigate_keeps url st :
  collected (fst (g2_navigate web url st)) = collected st
  /\ stop_due_to_old (fst (g2_navigate web url st)) = stop_due_to_old st
  /\ fetched (log (fst (g2_navigate web url st))) = fetched (log st).
Proof.
  unfold g2_navigate.
  destruct (goto (web url) DomContentLoaded);
    [| destruct (goto (web url) Load) |]; cbn [fst say collected stop_due_to_old log];
    rewrite ?fetched_app; cbn [fetched]; rewrite ?app_nil_r; auto.
Qed.

(** The outcome of one G2 page, by cases. *)
Lemma g2_page_cases base page_no st :
  let url := page_url base page_no in
  let st1 := fst (g2_navigate web url (say [Fetching SiteG2 page_no url] st)) in
  let cards := processed (locator_all (web url) g2_cards_selector) in
  g2_page' base page_no st =
  if g2_reaches (web url) then
    if detect_blocked lower_nonascii (content (web url))
    then (say [BlockedNotice] st1, Some BLOCKED)
    else if probe (web url) candidate_waits
    then
      if stop_due_to_old (fold_left g2_card' cards st1)
      then (say [OldNotice] (fold_left g2_card' cards st1), Some DATE_BOUNDARY)
      else (fold_left g2_card' cards st1, None)
    else (say [NoContainersNotice page_no] st1, Some NO_CONTAINERS)
  else (st1, Some NAV_ERROR).
Proof.
  intros url st1 cards. unfold g2_page. fold url.
  pose proof (g2_navigate_reaches url (say [Fetching SiteG2 page_no url] st)) as Hr.
  subst st1.
  destruct (g2_navigate web url (say [Fetching SiteG2 page_no url] st))
    as [s reached]. cbn [fst snd] in *. subst reached.
  destruct (g2_reaches (web url)); [|reflexivity].
  destruct (detect_blocked _ _); [reflexivity|].
  destruct (probe _ _); reflexivity.
Qed.

(** What one G2 page adds, whatever its outcome. *)
Lemma g2_page_adds (P : ReviewRecord -> Prop) base :
  (forall card, Forall P (g2_emit' card)) ->
  forall n st, exists added,
      collected (fst (g2_page' base n st)) = collected st ++ added
      /\ Forall P added /\ List.length added <= card_cap
      /\ fetched (log (fst (g2_page' base n st))) = fetched (log st) ++ [n].
Proof.
  intros HP n st. rewrite g2_page_cases.
  set (url := page_url base n).
  set (st0 := say [Fetching SiteG2 n url] st).
  destruct (g2_navigate_keeps url st0) as [Hc [_ Hf]].
  assert (Hf0 : fetched (log st0) = fetched (log st) ++ [n]).
  { subst st0. cbn [say log]. now rewrite fetched_app. }
  set (cards := processed (locator_all (web url) g2_cards_selector)).
  assert (Hsome : exists added,
             collected (fold_left g2_card' cards (fst (g2_navigate web url st0)))
             = collected st ++ added
             /\ Forall P added /\ List.length added <= card_cap).
  { exists (flat_map g2_emit' cards). rewrite g2_cards_collected, Hc.
    split; [reflexivity|]. split.
    - apply Forall_flat_map, Forall_forall. intros c _. apply HP.
    - etransitivity; [apply flat_map_short, g2_emit_short|].
      apply processed_capped. }
  assert (Hnone : exists added : list ReviewRecord,
             collected st = collected st ++ added
             /\ Forall P added /\ List.length added <= card_cap).
  { exists []. rewrite app_nil_r. repeat split; auto. simpl. lia. }
  destruct (g2_reaches (web url)).
  - destruct (detect_blocked _ _).
    + destruct Hnone as [a [H1 [H2 H3]]]. exists a.
      cbn [fst say collected log]. rewrite Hc, fetched_app, Hf, Hf0.
      cbn [fetched]. rewrite app_nil_r. auto.
    + destruct (probe _ _).
      * destruct Hsome as [a [H1 [H2 H3]]]. exists a.
        destruct (stop_due_to_old _);
          cbn [fst say collected log]; rewrite ?fetched_app, g2_cards_log, Hf, Hf0;
          cbn [fetched]; rewrite ?app_nil_r; auto.
      * destruct Hnone as [a [H1 [H2 H3]]]. exists a.
        cbn [fst say collected log]. rewrite Hc, fetched_app, Hf, Hf0.
        cbn [fetched]. rewrite app_nil_r. auto.
  - destruct Hnone as [a [H1 [H2 H3]]]. exists a.
    cbn [fst]. rewrite Hc, Hf, Hf0. auto.
Qed.

(** What one TrustRadius page adds, whatever its outcome. *)
Lemma tr_page_adds (P : ReviewRecord -> Prop) base :
  (forall card, Forall P (tr_emit' card)) ->
  forall n st, exists added,
      collected (fst (tr_page' base n st)) = collected st ++ added
      /\ Forall P added /\ List.length added <= card_cap
      /\ fetched (log (fst (tr_page' base n st))) = fetched (log st) ++ [n].
Proof.
  intros HP n st. unfold tr_page.
  set (url := page_url base n).
  set (st0 := say _ st).
  assert (Hf0 : fetched (log st0) = fetched (log st) ++ [n]).
  { subst st0. cbn [say log]. now rewrite fetched_app. }
  assert (Hnone : exists added : list ReviewRecord,
             collected st0 = collected st ++ added
             /\ Forall P added /\ List.length added <= card_cap).
  { exists []. rewrite app_nil_r. repeat split; auto. simpl. lia. }
  destruct (goto (web url) DomContentLoaded);
    try (destruct Hnone as [a [H1 [H2 H3]]]; exists a; cbn [fst]; now auto).
  destruct (locator_all (web url) tr_cards_selector) as [|c cs] eqn:Hcards.
  - destruct Hnone as [a [H1 [H2 H3]]]. exists a. cbn [fst]. auto.
  - exists (flat_map tr_emit' (processed (c :: cs))). cbn [fst].
    rewrite tr_cards_collected, tr_cards_log. split; [reflexivity|].
    split; [|split; [|exact Hf0]].
    + apply Forall_flat_map, Forall_forall. intros c' _. apply HP.
    + etransitivity; [apply flat_map_short, tr_emit_short|].
      apply processed_capped.
Qed.

End Pages.

Lemma page_loop_exit (E : Exit -> Prop)
    (page : Z -> LoopState -> LoopState * option Exit) :
  E MAX_PAGES ->
  (forall n st e, snd (page n st) = Some e -> E e) ->
  forall pages st, E (exit (page_loop page pages st)).
Proof.
  intros Hmax Hpage pages. induction pages as [|n rest IH]; intros st; simpl.
  - exact Hmax.
  - specialize (Hpage n st). destruct (page n st) as [st' [e|]]; simpl in *.
    + now apply Hpage.
    + apply IH.
Qed.

Lemma page_loop_keeps (Q : LoopState -> Prop)
    (page : Z -> LoopState -> LoopState * option Exit) :
  (forall n st, Q st -> Q (fst (page n st))) ->
  forall pages st, Q st -> Q (final (page_loop page pages st)).
Proof.
  intros Hpage pages. induction pages as [|n rest IH]; intros st HQ; simpl.
  - exact HQ.
  - specialize (Hpage n st HQ). destruct (page n st) as [st' [e|]]; simpl in *.
    + exact Hpage.
    + now apply IH.
Qed.

Lemma firstn_map_seq (k m : nat) :
  k <= m -> firstn k (map Z.of_nat (seq 1 m)) = map Z.of_nat (seq 1 k).
Proof.
  intros Hk. rewrite firstn_map. f_equal.
  generalize 1 as a. revert m Hk.
  induction k as [|k IH]; intros m Hk a; [reflexivity|].
  destruct m as [|m]; [lia|]. simpl. f_equal. apply IH. lia.
Qed.

(** A loop over [range(1, max_pages + 1)] from the initial state stays
    within its budget, and its records satisfy what the pages guarantee. *)
Lemma run_from_initial (P : ReviewRecord -> Prop)
    (page : Z -> LoopState -> LoopState * option Exit) (max_pages : Z) :
  (forall n st, exists added,
      collected (fst (page n st)) = collected st ++ added
      /\ Forall P added /\ List.length added <= card_cap
      /\ fetched (log (fst (page n st))) = fetched (log st) ++ [n]) ->
  let r := page_loop page (py_range 1 (max_pages + 1)) initial in
  Forall P (collected (final r)) /\ bounded_run max_pages r.
Proof.
  intros Hpage r.
  destruct (page_loop_adds P page Hpage (py_range 1 (max_pages + 1)) initial)
    as [k [added [Hk [Hc [HP [Hlen Hf]]]]]].
  fold r in Hc, Hf. cbn [initial collected log fetched app] in Hc, Hf.
  rewrite py_range_length in Hk.
  split; [now rewrite Hc|].
  exists k. rewrite Hc, Hf, py_range_pages, firstn_map_seq by exact Hk.
  split; [exact Hk|]. split; [reflexivity|]. split; [exact Hlen|].
  apply (Nat.le_trans _ _ _ Hlen), Nat.mul_le_mono_l, Hk.
Qed.

Section Claims.

Variable lower_nonascii : pystr -> N -> pystr -> pystr.
Variable re_sub_reviewed_on : pystr -> pystr.
Variable dateutil_parse : pystr -> option PyDate.date.
Variable web : Web.
Variables start_d end_d : PyDate.date.

Local Abbreviation card_date' := (card_date re_sub_reviewed_on dateutil_parse).
Local Abbreviation g2_card' := (g2_card re_sub_reviewed_on dateutil_parse start_d end_d).
Local Abbreviation tr_card' := (tr_card re_sub_reviewed_on dateutil_parse start_d end_d).
Local Abbreviation g2_emit' := (g2_emit re_sub_reviewed_on dateutil_parse start_d end_d).
Local Abbreviation tr_emit' := (tr_emit re_sub_reviewed_on dateutil_parse start_d end_d).
Local Abbreviation g2_page' :=
  (g2_page lower_nonascii re_sub_reviewed_on dateutil_parse web start_d end_d).
Local Abbreviation tr_page' :=
  (tr_page re_sub_reviewed_on dateutil_parse web start_d end_d).
Local Abbreviation scrape_g2' :=
  (scrape_g2 lower_nonascii re_sub_reviewed_on dateutil_parse web start_d end_d).
Local Abbreviation scrape_trustradius' :=
  (scrape_trustradius re_sub_reviewed_on dateutil_parse web start_d end_d).

Lemma g2_run_records (P : ReviewRecord -> Prop) company max_pages dbg hl sm :
  (forall card, Forall P (g2_emit' card)) ->
  Forall P (collected (final (scrape_g2' company max_pages dbg hl sm)))
  /\ bounded_run max_pages (scrape_g2' company max_pages dbg hl sm).
Proof.
  intros HP. unfold scrape_g2. apply run_from_initial.
  now apply g2_page_adds.
Qed.

Lemma tr_run_records (P : ReviewRecord -> Prop) company max_pages dbg hl sm :
  (forall card, Forall P (tr_emit' card)) ->
  Forall P (collected (final (scrape_trustradius' company max_pages dbg hl sm)))
  /\ bounded_run max_pages (scrape_trustradius' company max_pages dbg hl sm).
Proof.
  intros HP. unfold scrape_trustradius. apply run_from_initial.
  now apply tr_page_adds.
Qed.

Lemma g2_emit_dated card : Forall (dated_within start_d end_d) (g2_emit' card).
Proof.
  destruct (g2_emit_cases re_sub_reviewed_on dateutil_parse start_d end_d card)
    as [-> | [b [d [_ [_ [_ [H1 [H2 ->]]]]]]]]; constructor; [|constructor].
  exists d. simpl. auto.
Qed.

Lemma tr_emit_dated card : Forall (dated_within start_d end_d) (tr_emit' card).
Proof.
  destruct (tr_emit_cases re_sub_reviewed_on dateutil_parse start_d end_d card)
    as [-> | [b [d [_ [_ [H1 [H2 ->]]]]]]]; constructor; [|constructor].
  exists d. simpl. auto.
Qed.

Lemma g2_emit_long card : Forall (fun r => 21 <= len (review r)) (g2_emit' card).
Proof.
  destruct (g2_emit_cases re_sub_reviewed_on dateutil_parse start_d end_d card)
    as [-> | [b [d [Hb [_ [_ [_ [_ ->]]]]]]]]; constructor; [|constructor].
  simpl. now apply body_ok_spec, (first_body_ok card g2_body_selectors).
Qed.

Lemma tr_emit_long card : Forall (fun r => 21 <= len (review r)) (tr_emit' card).
Proof.
  destruct (tr_emit_cases re_sub_reviewed_on dateutil_parse start_d end_d card)
    as [-> | [b [d [Hb [_ [_ [_ ->]]]]]]]; constructor; [|constructor].
  simpl. now apply body_ok_spec, (first_body_ok card tr_body_selectors).
Qed.

Lemma tr_emit_unrated card : Forall (fun r => rating r = None) (tr_emit' card).
Proof.
  destruct (tr_emit_cases re_sub_reviewed_on dateutil_parse start_d end_d card)
    as [-> | [b [d [_ [_ [_ [_ ->]]]]]]]; constructor; [|constructor].
  reflexivity.
Qed.

(** C1.  In the output of every adapter each record carries the ISO text of
    a date [d] with [start_d <= d <= end_d]; and a container whose date
    text does not parse adds no record, in [scrape_g2] and in
    [scrape_trustradius]. *)
Theorem output_dates_within_window :
  forall (company : pystr) (max_pages : Z) (debug_html headless : bool) (slow_mo : Z),
    Forall (dated_within start_d end_d)
      (collected (final (scrape_g2' company max_pages debug_html headless slow_mo)))
    /\ Forall (dated_within start_d end_d)
         (collected (final (scrape_trustradius' company max_pages debug_html headless slow_mo)))
    /\ Forall (dated_within start_d end_d)
         (scrape_capterra company start_d end_d debug_html headless slow_mo)
    /\ (forall st card,
          card_date' g2_date_selectors card = None ->
          collected (g2_card' st card) = collected st)
    /\ (forall st card,
          card_date' tr_date_selectors card = None ->
          collected (tr_card' st card) = collected st).
Proof.
  intros company max_pages dbg hl sm.
  split; [apply g2_run_records, g2_emit_dated|].
  split; [apply tr_run_records, tr_emit_dated|].
  split; [constructor|].
  split; intros st card H.
  - rewrite g2_card_collected, g2_emit_undated by exact H. apply app_nil_r.
  - rewrite tr_card_collected, tr_emit_undated by exact H. apply app_nil_r.
Qed.

(** C5, as the code has it.  The body chain accepts a candidate's stripped
    text exactly when it is longer than 20 characters, that is of length at
    least 21; the chain returns the first such text; so every record of
    either adapter has a body of length at least 21. *)
Theorem body_longer_than_twenty :
  forall (company : pystr) (max_pages : Z) (debug_html headless : bool) (slow_mo : Z),
    (forall t, body_ok t = true <-> 21 <= len t)
    /\ (forall card sel rest raw,
          inner_text card sel = Some raw ->
          first_body card (sel :: rest)
          = if Nat.leb 21 (len (strip raw)) then Some (strip raw)
            else first_body card rest)
    /\ (forall card sels b, first_body card sels = Some b -> 21 <= len b)
    /\ Forall (fun r => 21 <= len (review r))
         (collected (final (scrape_g2' company max_pages debug_html headless slow_mo)))
    /\ Forall (fun r => 21 <= len (review r))
         (collected (final (scrape_trustradius' company max_pages debug_html headless slow_mo))).
Proof.
  intros company max_pages dbg hl sm.
  split; [apply body_ok_spec|].
  split.
  { intros card sel rest raw H. cbn [first_body]. rewrite H.
    destruct (body_ok (strip raw)) eqn:E.
    - apply body_ok_spec in E. apply Nat.leb_le in E. now rewrite E.
    - destruct (Nat.leb 21 (len (strip raw))) eqn:E'; [|reflexivity].
      apply Nat.leb_le, body_ok_spec in E'. congruence. }
  split.
  { intros card sels b H. now apply body_ok_spec, (first_body_ok card sels). }
  split; [apply g2_run_records, g2_emit_long | apply tr_run_records, tr_emit_long].
Qed.

(** C7.  [--max_pages] defaults to 10; a run of either adapter announces
    the pages 1, 2, ..., k for some k not above [max_pages] (none when
    [max_pages] is not positive), processes at most 60 containers on a
    page, and ends, being a structural recursion over
    [range(1, max_pages + 1)], with at most 60 records per page, hence at
    most 60 times [max_pages]; the placeholder returns none. *)
Theorem pagination_is_bounded :
  forall (company : pystr) (max_pages : Z) (debug_html headless : bool) (slow_mo : Z),
    default_max_pages = 10%Z
    /\ card_cap = 60
    /\ py_range 1 (max_pages + 1) = map Z.of_nat (seq 1 (Z.to_nat max_pages))
    /\ (forall cards, List.length (processed cards) <= 60)
    /\ bounded_run max_pages
         (scrape_g2' company max_pages debug_html headless slow_mo)
    /\ bounded_run max_pages
         (scrape_trustradius' company max_pages debug_html headless slow_mo)
    /\ List.length (scrape_capterra company start_d end_d debug_html headless slow_mo) = 0.
Proof.
  intros company max_pages dbg hl sm.
  split; [reflexivity|]. split; [reflexivity|].
  split; [apply py_range_pages|].
  split; [apply processed_capped|].
  split; [apply (g2_run_records (fun _ => True)) | split].
  - intros card. apply Forall_forall. auto.
  - apply (tr_run_records (fun _ => True)). intros card. apply Forall_forall. auto.
  - reflexivity.
Qed.

(** C9.  Every record of a TrustRadius run has rating [None]. *)
Theorem trustradius_rating_is_none :
  forall (product_slug : pystr) (max_pages : Z) (debug_html headless : bool) (slow_mo : Z),
    Forall (fun r => rating r = None)
      (collected (final (scrape_trustradius' product_slug max_pages debug_html headless slow_mo))).
Proof.
  intros. apply tr_run_records, tr_emit_unrated.
Qed.

End Claims.

(** C8.  [scrape_capterra] returns the empty list for every input. *)
Theorem capterra_returns_nothing :
  forall (company_id : pystr) (start_d end_d : PyDate.date)
         (debug_html headless : bool) (slow_mo : Z),
    scrape_capterra company_id start_d end_d debug_html headless slow_mo = [].
Proof. reflexivity. Qed.

Section Stops.

Variable lower_nonascii : pystr -> N -> pystr -> pystr.
Variable re_sub_reviewed_on : pystr -> pystr.
Variable dateutil_parse : pystr -> option PyDate.date.
Variable web : Web.
Variables start_d end_d : PyDate.date.

Local Abbreviation card_date' := (card_date re_sub_reviewed_on dateutil_parse).
Local Abbreviation g2_card' := (g2_card re_sub_reviewed_on dateutil_parse start_d end_d).
Local Abbreviation tr_card' := (tr_card re_sub_reviewed_on dateutil_parse start_d end_d).
Local Abbreviation g2_emit' := (g2_emit re_sub_reviewed_on dateutil_parse start_d end_d).
Local Abbreviation g2_page' :=
  (g2_page lower_nonascii re_sub_reviewed_on dateutil_parse web start_d end_d).
Local Abbreviation tr_page' :=
  (tr_page re_sub_reviewed_on dateutil_parse web start_d end_d).
Local Abbreviation scrape_trustradius' :=
  (scrape_trustradius re_sub_reviewed_on dateutil_parse web start_d end_d).
Local Abbreviation blocked' := (detect_blocked lower_nonascii).

Lemma g2_page_gotos base page_no st :
  let url := page_url base page_no in
  gotos (log (fst (g2_page' base page_no st)))
  = gotos (log (fst (g2_navigate web url st))).
Proof.
  intros url. rewrite g2_page_cases. fold url.
  assert (Hnav : gotos (log (fst (g2_navigate web url
                                   (say [Fetching SiteG2 page_no url] st))))
                 = gotos (log (fst (g2_navigate web url st)))).
  { unfold g2_navigate.
    destruct (goto (web url) DomContentLoaded);
      [| destruct (goto (web url) Load) |];
      cbn [fst say log]; rewrite !gotos_app; cbn [gotos];
      rewrite ?app_nil_r; reflexivity. }
  destruct (g2_reaches (web url)); [|exact Hnav].
  destruct (blocked' _).
  { cbn [fst say log]. rewrite gotos_app. cbn [gotos]. now rewrite app_nil_r. }
  destruct (probe _ _).
  - destruct (stop_due_to_old _); cbn [fst say log];
      rewrite ?gotos_app, g2_cards_log; cbn [gotos]; rewrite ?app_nil_r; exact Hnav.
  - cbn [fst say log]. rewrite gotos_app. cbn [gotos]. now rewrite app_nil_r.
Qed.

Lemma g2_page_error base page_no st :
  snd (g2_page' base page_no st) = Some NAV_ERROR
  <-> g2_reaches (web (page_url base page_no)) = false.
Proof.
  rewrite g2_page_cases.
  destruct (g2_reaches _); [|now split].
  destruct (blocked' _); [split; discriminate|].
  destruct (probe _ _); [|split; discriminate].
  destruct (stop_due_to_old _); split; discriminate.
Qed.

(** C3, as the code has it.  In [scrape_g2] a first navigation timeout is
    followed by exactly one more navigation, which waits for [load]; when
    that one succeeds the page is processed, when it fails the exception
    ends the run.  In [scrape_trustradius] nothing catches a navigation
    failure: a single timeout ends the run, after one navigation. *)
Theorem navigation_retry_only_in_g2 :
  forall (base : pystr) (page_no : Z) (rest : list Z) (st : LoopState),
    let url := page_url base page_no in
    (goto (web url) DomContentLoaded = NavTimeout ->
     goto (web url) Load = NavOk ->
     snd (g2_page' base page_no st) <> Some NAV_ERROR
     /\ gotos (log (fst (g2_page' base page_no st)))
        = gotos (log st) ++ [(url, DomContentLoaded); (url, Load)])
    /\ (goto (web url) DomContentLoaded = NavTimeout ->
        goto (web url) Load <> NavOk ->
        let run := page_loop (g2_page' base) (page_no :: rest) st in
        exit run = NAV_ERROR /\ returned run = None
        /\ collected (final run) = collected st
        /\ gotos (log (final run))
           = gotos (log st) ++ [(url, DomContentLoaded); (url, Load)])
    /\ (goto (web url) DomContentLoaded <> NavOk ->
        let run := page_loop (tr_page' base) (page_no :: rest) st in
        exit run = NAV_ERROR /\ returned run = None
        /\ collected (final run) = collected st
        /\ gotos (log (final run)) = gotos (log st) ++ [(url, DomContentLoaded)]).
Proof.
  intros base page_no rest st url.
  assert (Hretry : goto (web url) DomContentLoaded = NavTimeout ->
                   gotos (log (fst (g2_page' base page_no st)))
                   = gotos (log st) ++ [(url, DomContentLoaded); (url, Load)]).
  { intros H1. rewrite g2_page_gotos. fold url. unfold g2_navigate. rewrite H1.
    destruct (goto (web url) Load); cbn [fst say log];
      rewrite !gotos_app; cbn [gotos]; now rewrite <- app_assoc. }
  split; [|split].
  - intros H1 H2. split; [|now apply Hretry].
    intros Herr. apply g2_page_error in Herr. fold url in Herr.
    unfold g2_reaches in Herr. rewrite H1, H2 in Herr. discriminate.
  - intros H1 H2 run.
    assert (Herr : snd (g2_page' base page_no st) = Some NAV_ERROR).
    { apply g2_page_error. fold url. unfold g2_reaches. rewrite H1.
      destruct (goto (web url) Load); congruence. }
    specialize (Hretry H1).
    assert (Hc : collected (fst (g2_page' base page_no st)) = collected st).
    { rewrite g2_page_cases. fold url.
      assert (Hr : g2_reaches (web url) = false).
      { exact (proj1 (g2_page_error base page_no st) Herr). }
      rewrite Hr. cbn [fst].
      now destruct (g2_navigate_keeps web url
                      (say [Fetching SiteG2 page_no url] st)) as [-> _]. }
    subst run. cbn [page_loop].
    destruct (g2_page' base page_no st) as [st' o]. cbn [fst snd] in *. subst o.
    unfold returned. cbn [final exit]. auto.
  - intros H1 run. subst run. cbn [page_loop]. unfold tr_page. fold url.
    destruct (goto (web url) DomContentLoaded); [congruence| |];
      unfold returned; cbn [final exit say log collected];
      rewrite gotos_app; cbn [gotos]; auto.
Qed.

(** C4, as the code has it.  After a successful navigation [scrape_g2]
    probes for containers, reads the markup, and then tests the markup
    first: a page whose markup is classified as blocked stops the run as
    BLOCKED whether or not a container selector matched, and the run
    stops as NO_CONTAINERS exactly when the markup is not blocked and no
    selector of [candidate_waits] matched.  Neither stop collects a record
    from the page. *)
Theorem blocked_test_comes_first :
  forall (base : pystr) (page_no : Z) (st : LoopState),
    let view := web (page_url base page_no) in
    let out := g2_page' base page_no st in
    (snd out = Some BLOCKED <->
       g2_reaches view = true /\ blocked' (content view) = true)
    /\ (snd out = Some NO_CONTAINERS <->
          g2_reaches view = true /\ blocked' (content view) = false
          /\ probe view candidate_waits = false)
    /\ (snd out = Some BLOCKED \/ snd out = Some NO_CONTAINERS ->
        collected (fst out) = collected st).
Proof.
  intros base page_no st view out. subst out. rewrite g2_page_cases. fold view.
  destruct (g2_navigate_keeps web (page_url base page_no)
              (say [Fetching SiteG2 page_no (page_url base page_no)] st))
    as [Hc _].
  destruct (g2_reaches view).
  - destruct (blocked' (content view)).
    + cbn [fst snd say collected]. repeat split; auto; try discriminate.
      * intros [_ [H _]]. discriminate.
    + destruct (probe view candidate_waits).
      * destruct (stop_due_to_old _); cbn [fst snd];
          (split; [split; [discriminate | intros [_ H]; discriminate]|]);
          (split; [split; [discriminate | intros [_ [_ H]]; discriminate]|]);
          intros [H | H]; discriminate.
      * cbn [fst snd say collected].
        split; [split; [discriminate | intros [_ H]; discriminate]|].
        split; [split; auto|]. auto.
  - cbn [fst snd].
    split; [split; [discriminate | intros [H _]; discriminate]|].
    split; [split; [discriminate | intros [H _]; discriminate]|].
    intros [H | H]; discriminate.
Qed.

Lemma g2_card_later st card d :
  PyDate.leb start_d end_d = true ->
  card_date' g2_date_selectors card = Some d ->
  PyDate.ltb end_d d = true ->
  g2_card' st card = st.
Proof.
  intros Hw Hd Hlate. unfold g2_card. rewrite Hd. cbn [older in_range].
  rewrite (later_is_not_older _ _ _ Hw Hlate), (later_is_out _ _ Hlate).
  now rewrite andb_false_r, andb_false_r.
Qed.

Lemma g2_cards_later cards st :
  PyDate.leb start_d end_d = true ->
  Forall (fun c => exists d, card_date' g2_date_selectors c = Some d
                             /\ PyDate.ltb end_d d = true) cards ->
  fold_left g2_card' cards st = st.
Proof.
  intros Hw Hall. revert st. induction Hall as [|c cards [d [Hd Hl]] _ IH];
    intros st; simpl; [reflexivity|].
  now rewrite (g2_card_later st c d Hw Hd Hl).
Qed.

Lemma older_found cards :
  existsb (fun c => older (card_date' g2_date_selectors c) start_d) cards = true
  <-> exists card d, In card cards
                     /\ card_date' g2_date_selectors card = Some d
                     /\ PyDate.ltb d start_d = true.
Proof.
  rewrite existsb_exists. split.
  - intros [c [Hin H]]. destruct (card_date' g2_date_selectors c) as [d|] eqn:E;
      [|discriminate]. now exists c, d.
  - intros [c [d [Hin [Hd Hlt]]]]. exists c. rewrite Hd. auto.
Qed.

(** C10.  With [start_d <= end_d]: a container dated after [end_d] leaves
    the state of [scrape_g2] as it is, adding no record and not setting
    [stop_due_to_old]; only a container dated before [start_d] sets the
    flag; a page whose processed containers are all dated after [end_d]
    lets the loop go on to the next page; and the loop stops at the date
    boundary only after a processed container dated before [start_d]. *)
Theorem later_than_window_never_stops :
  PyDate.leb start_d end_d = true ->
  (forall st card d,
      card_date' g2_date_selectors card = Some d ->
      PyDate.ltb end_d d = true ->
      g2_card' st card = st)
  /\ (forall st card,
        stop_due_to_old (g2_card' st card) = true ->
        stop_due_to_old st = true
        \/ exists d, card_date' g2_date_selectors card = Some d
                     /\ PyDate.ltb d start_d = true)
  /\ (forall base page_no st,
        let view := web (page_url base page_no) in
        let out := g2_page' base page_no st in
        g2_reaches view = true ->
        blocked' (content view) = false ->
        probe view candidate_waits = true ->
        stop_due_to_old st = false ->
        Forall (fun c => exists d, card_date' g2_date_selectors c = Some d
                                   /\ PyDate.ltb end_d d = true)
          (processed (locator_all view g2_cards_selector)) ->
        snd out = None /\ collected (fst out) = collected st
        /\ stop_due_to_old (fst out) = false)
  /\ (forall base page_no st,
        let view := web (page_url base page_no) in
        snd (g2_page' base page_no st) = Some DATE_BOUNDARY ->
        stop_due_to_old st = false ->
        exists card d,
          In card (processed (locator_all view g2_cards_selector))
          /\ card_date' g2_date_selectors card = Some d
          /\ PyDate.ltb d start_d = true).
Proof.
  intros Hw. split; [|split; [|split]].
  - intros st card d. now apply g2_card_later.
  - intros st card. rewrite g2_card_flag. intros H.
    apply orb_true_iff in H. destruct H as [H | H]; [now left | right].
    destruct (card_date' g2_date_selectors card) as [d|]; [|discriminate].
    now exists d.
  - intros base page_no st view out Hr Hb Hp Hs Hall. subst out.
    rewrite g2_page_cases. fold view. rewrite Hr, Hb, Hp.
    rewrite (g2_cards_later _ _ Hw Hall).
    destruct (g2_navigate_keeps web (page_url base page_no)
                (say [Fetching SiteG2 page_no (page_url base page_no)] st))
      as [Hc [Hf _]].
    cbn [say stop_due_to_old collected] in Hc, Hf. rewrite Hf, Hs. cbn [fst snd].
    rewrite Hc, Hf. auto.
  - intros base page_no st view Hexit Hs. rewrite g2_page_cases in Hexit.
    fold view in Hexit.
    destruct (g2_reaches view); [|discriminate].
    destruct (blocked' _); [discriminate|].
    destruct (probe _ _); [|discriminate].
    destruct (stop_due_to_old (fold_left _ _ _)) eqn:E; [|discriminate].
    rewrite g2_cards_flag in E.
    destruct (g2_navigate_keeps web (page_url base page_no)
                (say [Fetching SiteG2 page_no (page_url base page_no)] st))
      as [_ [Hf _]].
    cbn [say stop_due_to_old] in Hf. rewrite Hf, Hs in E.
    now apply older_found.
Qed.

End Stops.

Section Boundary.

Variable lower_nonascii : pystr -> N -> pystr -> pystr.
Variable re_sub_reviewed_on : pystr -> pystr.
Variable dateutil_parse : pystr -> option PyDate.date.
Variable web : Web.
Variables start_d end_d : PyDate.date.

Local Abbreviation card_date' := (card_date re_sub_reviewed_on dateutil_parse).
Local Abbreviation g2_card' := (g2_card re_sub_reviewed_on dateutil_parse start_d end_d).
Local Abbreviation tr_card' := (tr_card re_sub_reviewed_on dateutil_parse start_d end_d).
Local Abbreviation g2_emit' := (g2_emit re_sub_reviewed_on dateutil_parse start_d end_d).
Local Abbreviation g2_page' :=
  (g2_page lower_nonascii re_sub_reviewed_on dateutil_parse web start_d end_d).
Local Abbreviation tr_page' :=
  (tr_page re_sub_reviewed_on dateutil_parse web start_d end_d).
Local Abbreviation scrape_trustradius' :=
  (scrape_trustradius re_sub_reviewed_on dateutil_parse web start_d end_d).
Local Abbreviation blocked' := (detect_blocked lower_nonascii).

Lemma tr_card_older st card d :
  card_date' tr_date_selectors card = Some d ->
  PyDate.ltb d start_d = true ->
  tr_card' st card = st.
Proof.
  intros Hd Hold. unfold tr_card. rewrite Hd. cbn [in_range].
  rewrite (older_is_out _ _ Hold). cbn [andb]. now rewrite andb_false_r.
Qed.

Lemma tr_page_flag base page_no st :
  stop_due_to_old (fst (tr_page' base page_no st)) = stop_due_to_old st.
Proof.
  unfold tr_page. destruct (goto _ _); try reflexivity.
  destruct (locator_all _ _); [reflexivity|].
  cbn [fst]. now rewrite tr_cards_flag.
Qed.

Lemma tr_page_exit base page_no st e :
  snd (tr_page' base page_no st) = Some e -> e <> DATE_BOUNDARY.
Proof.
  unfold tr_page. destruct (goto _ _);
    [destruct (locator_all _ _) | |]; cbn [snd]; intros H;
    try discriminate; injection H as <-; discriminate.
Qed.

(** C2, as the code has it.  In [scrape_g2], when a processed container of
    a page is dated before [start_d], that container adds no record and
    sets [stop_due_to_old]; the loop finishes the page and stops there as
    DATE_BOUNDARY, no later page is announced, and the records of the
    page's containers, among them every one in the window, are kept.
    [scrape_trustradius] has no such stop: a container dated before
    [start_d] is skipped, the page loop goes on to the next page whenever
    the page loaded and showed a container, and no run ends as
    DATE_BOUNDARY. *)
Theorem date_boundary_stops_g2_only :
  (forall (base : pystr) (page_no : Z) (rest : list Z) (st : LoopState)
          (card : Card) (d : PyDate.date),
      let view := web (page_url base page_no) in
      let cards := processed (locator_all view g2_cards_selector) in
      let run := page_loop (g2_page' base) (page_no :: rest) st in
      g2_reaches view = true ->
      blocked' (content view) = false ->
      probe view candidate_waits = true ->
      In card cards ->
      card_date' g2_date_selectors card = Some d ->
      PyDate.ltb d start_d = true ->
      (forall st', collected (g2_card' st' card) = collected st'
                   /\ stop_due_to_old (g2_card' st' card) = true)
      /\ exit run = DATE_BOUNDARY
      /\ fetched (log (final run)) = fetched (log st) ++ [page_no]
      /\ collected (final run) = collected st ++ flat_map g2_emit' cards)
  /\ (forall st card d,
        card_date' tr_date_selectors card = Some d ->
        PyDate.ltb d start_d = true ->
        tr_card' st card = st)
  /\ (forall base page_no st,
        let view := web (page_url base page_no) in
        goto view DomContentLoaded = NavOk ->
        locator_all view tr_cards_selector <> [] ->
        snd (tr_page' base page_no st) = None)
  /\ (forall product_slug max_pages debug_html headless slow_mo,
        let run := scrape_trustradius' product_slug max_pages debug_html headless slow_mo in
        exit run <> DATE_BOUNDARY /\ stop_due_to_old (final run) = false).
Proof.
  split; [|split; [|split]].
  - intros base page_no rest st card d view cards run Hr Hb Hp Hin Hd Hold.
    split.
    { intros st'. rewrite g2_card_collected, g2_card_flag, Hd.
      rewrite (g2_emit_older _ _ _ _ card d Hd Hold). cbn [older].
      rewrite Hold, app_nil_r, orb_true_r. auto. }
    subst run. cbn [page_loop]. rewrite g2_page_cases. fold view. fold cards.
    rewrite Hr, Hb, Hp.
    assert (Hflag : existsb (fun c => older (card_date' g2_date_selectors c) start_d)
                      cards = true).
    { apply existsb_exists. exists card. rewrite Hd. auto. }
    rewrite g2_cards_flag, Hflag, orb_true_r.
    destruct (g2_navigate_keeps web (page_url base page_no)
                (say [Fetching SiteG2 page_no (page_url base page_no)] st))
      as [Hc [_ Hf]].
    cbn [final exit say log collected].
    rewrite fetched_app, g2_cards_log, g2_cards_collected, Hc, Hf.
    cbn [say log collected]. rewrite fetched_app. cbn [fetched].
    rewrite app_nil_r. auto.
  - intros st card d. apply tr_card_older.
  - intros base page_no st view Hnav Hcards. unfold tr_page. fold view.
    rewrite Hnav. destruct (locator_all view tr_cards_selector); [congruence|].
    reflexivity.
  - intros slug max_pages dbg hl sm run. subst run. unfold scrape_trustradius.
    split.
    + apply (page_loop_exit (fun e => e <> DATE_BOUNDARY)); [discriminate|].
      intros n st e. apply tr_page_exit.
    + apply (page_loop_keeps (fun s => stop_due_to_old s = false));
        [|reflexivity].
      intros n st H. now rewrite tr_page_flag.
Qed.

End Boundary.

(* ================================================================== *)
(** ** The claims on the scenarios *)
(* ================================================================== *)

Import Scenario.

Lemma output_dates_within_window_witness :
  card_date no_prefix parse_iso g2_date_selectors card_undated = None
  /\ collected (g2_card no_prefix parse_iso jan_1 mar_31 initial card_undated)
     = collected initial.
Proof.
  split; [reflexivity|].
  apply (proj1 (proj2 (proj2 (proj2
           (output_dates_within_window plain_lower no_prefix parse_iso
              descending jan_1 mar_31 slug 3 false true 0))))).
  reflexivity.
Defined.

Lemma body_longer_than_twenty_witness :
  first_body card_mar_10 g2_body_selectors
  = Some (lit "Great tool, it saved our team many hours.")
  /\ 21 <= len (lit "Great tool, it saved our team many hours.").
Proof.
  split; [reflexivity|].
  apply (proj1 (proj2 (proj2
           (body_longer_than_twenty plain_lower no_prefix parse_iso
              descending jan_1 mar_31 slug 3 false true 0)))
           card_mar_10 g2_body_selectors).
  reflexivity.
Defined.

(** C5, the claim as stated fails: a text of exactly 20 characters is not
    empty and has length at least 20, and the body test rejects it; a
    container with no other text has no body. *)
Lemma twenty_characters_rejected :
  truthy twenty = true /\ len twenty = 20 /\ body_ok twenty = false
  /\ first_body (text_card "Works well for us ok" "2024-03-10") g2_body_selectors = None
  /\ first_body (text_card "Works well for us ok" "2024-03-10") tr_body_selectors = None.
Proof. repeat split. Qed.

Lemma later_than_window_never_stops_witness :
  PyDate.leb jan_1 mar_31 = true
  /\ snd (g2_page plain_lower no_prefix parse_iso newer_first jan_1 mar_31
            (lit "https://www.g2.com/products/slack/reviews") 1 initial) = None.
Proof.
  split; [reflexivity|].
  apply (proj1 (proj2 (proj2
           (later_than_window_never_stops plain_lower no_prefix parse_iso
              newer_first jan_1 mar_31 eq_refl)))
           (lit "https://www.g2.com/products/slack/reviews") 1%Z initial);
    try reflexivity.
  apply Forall_forall. intros c Hc. vm_compute in Hc.
  destruct Hc as [<- | []]. exists (PyDate.mkdate 2024 4 20).
  split; reflexivity.
Defined.

Lemma date_boundary_stops_g2_only_witness :
  card_date no_prefix parse_iso g2_date_selectors card_dec_15
  = Some (PyDate.mkdate 2023 12 15)
  /\ PyDate.ltb (PyDate.mkdate 2023 12 15) jan_1 = true
  /\ exit (page_loop
             (g2_page plain_lower no_prefix parse_iso descending jan_1 mar_31
                (lit "https://www.g2.com/products/slack/reviews"))
             [2%Z; 3%Z] initial) = DATE_BOUNDARY.
Proof.
  split; [reflexivity|]. split; [reflexivity|].
  refine (proj1 (proj2
           (proj1 (date_boundary_stops_g2_only plain_lower no_prefix parse_iso
                     descending jan_1 mar_31)
              (lit "https://www.g2.com/products/slack/reviews") 2%Z [3%Z]
              initial card_dec_15 (PyDate.mkdate 2023 12 15)
              _ _ _ _ _ _))); try reflexivity.
  vm_compute. left. reflexivity.
Defined.

(** C2, the claim as stated fails for TrustRadius: on three pages in
    descending date order whose second page holds a review older than the
    window, the run does not stop after page 2: it goes on to page 3 and
    ends with the page budget; the flag is never set. *)
Lemma trustradius_runs_past_older_reviews :
  let run := scrape_trustradius no_prefix parse_iso descending jan_1 mar_31
               slug 3 false true 0 in
  card_date no_prefix parse_iso tr_date_selectors card_dec_15
  = Some (PyDate.mkdate 2023 12 15)
  /\ PyDate.ltb (PyDate.mkdate 2023 12 15) jan_1 = true
  /\ exit run = MAX_PAGES
  /\ fetched (log (final run)) = [1%Z; 2%Z; 3%Z]
  /\ stop_due_to_old (final run) = false.
Proof. vm_compute. repeat split. Qed.

Lemma navigation_retry_only_in_g2_witness :
  goto (slow (page_url (lit "https://www.g2.com/products/slack/reviews") 1))
    DomContentLoaded = NavTimeout
  /\ goto (slow (page_url (lit "https://www.g2.com/products/slack/reviews") 1))
       Load = NavOk
  /\ snd (g2_page plain_lower no_prefix parse_iso slow jan_1 mar_31
            (lit "https://www.g2.com/products/slack/reviews") 1 initial)
     <> Some NAV_ERROR.
Proof.
  split; [reflexivity|]. split; [reflexivity|].
  exact (proj1 (proj1
           (navigation_retry_only_in_g2 plain_lower no_prefix parse_iso slow
              jan_1 mar_31 (lit "https://www.g2.com/products/slack/reviews")
              1%Z [] initial)
           eq_refl eq_refl)).
Defined.

(** C3, the claim as stated fails for TrustRadius: on a page whose first
    navigation times out and whose second would load, the run makes one
    navigation, none that waits for [load], and ends with the exception;
    the caller receives no list. *)
Lemma trustradius_timeout_is_fatal :
  let run := scrape_trustradius no_prefix parse_iso slow jan_1 mar_31
               slug 3 false true 0 in
  let url := lit "https://www.trustradius.com/products/slack/reviews" in
  goto (slow url) DomContentLoaded = NavTimeout
  /\ goto (slow url) Load = NavOk
  /\ exit run = NAV_ERROR
  /\ returned run = None
  /\ gotos (log (final run)) = [(url, DomContentLoaded)].
Proof. vm_compute. repeat split. Qed.

Lemma blocked_test_comes_first_witness :
  g2_reaches (denied (page_url (lit "https://www.g2.com/products/slack/reviews") 1)) = true
  /\ detect_blocked plain_lower
       (content (denied (page_url (lit "https://www.g2.com/products/slack/reviews") 1)))
     = true
  /\ snd (g2_page plain_lower no_prefix parse_iso denied jan_1 mar_31
            (lit "https://www.g2.com/products/slack/reviews") 1 initial)
     = Some BLOCKED.
Proof.
  split; [reflexivity|]. split; [reflexivity|].
  apply (proj2 (proj1
           (blocked_test_comes_first plain_lower no_prefix parse_iso denied
              jan_1 mar_31 (lit "https://www.g2.com/products/slack/reviews")
              1%Z initial))).
  split; reflexivity.
Defined.

(** C4, the claim as stated fails: on a page where no container selector
    matches and whose markup reads "Access Denied", the run stops as
    BLOCKED, not as NO_CONTAINERS, and prints the blocked notice. *)
Lemma blocked_reported_without_containers :
  let run := scrape_g2 plain_lower no_prefix parse_iso denied jan_1 mar_31
               slug 3 false true 0 in
  probe denied_page candidate_waits = false
  /\ detect_blocked plain_lower (content denied_page) = true
  /\ exit run = BLOCKED
  /\ exit run <> NO_CONTAINERS
  /\ In BlockedNotice (log (final run))
  /\ ~ In (NoContainersNotice 1) (log (final run)).
Proof.
  vm_compute. repeat split; try discriminate.
  - right. right. left. reflexivity.
  - intros H. repeat (destruct H as [H | H]; [discriminate|]). exact H.
Qed.

(* ================================================================== *)
(** ** Further properties of the extraction pipeline *)
(* ================================================================== *)

Lemma first_body_skips (card : Card) (before rest : list string) :
  Forall (no_body card) before ->
  first_body card (before ++ rest) = first_body card rest.
Proof.
  induction 1 as [|sel before Hsel _ IH]; [reflexivity|].
  simpl. unfold no_body in Hsel.
  destruct (inner_text card sel) as [raw|]; [now rewrite Hsel | exact IH].
Qed.

Lemma first_body_none (card : Card) (sels : list string) :
  first_body card sels = None <-> Forall (no_body card) sels.
Proof.
  induction sels as [|sel rest IH]; simpl.
  - split; [constructor | reflexivity].
  - split.
    + intros H. constructor.
      * unfold no_body. destruct (inner_text card sel) as [raw|]; [|exact I].
        destruct (body_ok (strip raw)); [discriminate | reflexivity].
      * apply IH. destruct (inner_text card sel) as [raw|]; [|exact H].
        destruct (body_ok (strip raw)); [discriminate | exact H].
    + intros H. inversion H as [|x l Hsel Hrest]; subst. unfold no_body in Hsel.
      destruct (inner_text card sel) as [raw|]; [rewrite Hsel|]; now apply IH.
Qed.

Lemma first_body_some (card : Card) (sels : list string) (b : pystr) :
  first_body card sels = Some b ->
  exists before sel after raw,
    sels = before ++ sel :: after /\ Forall (no_body card) before
    /\ inner_text card sel = Some raw /\ body_ok (strip raw) = true
    /\ b = strip raw.
Proof.
  induction sels as [|sel rest IH]; simpl; [discriminate|].
  destruct (inner_text card sel) as [raw|] eqn:Htext.
  - destruct (body_ok (strip raw)) eqn:Hok.
    + intros H. injection H as <-. exists [], sel, rest, raw. auto.
    + intros H. destruct (IH H) as [before [s [after [r [-> [Hb H']]]]]].
      exists (sel :: before), s, after, r. split; [reflexivity|].
      split; [|exact H']. constructor; [|exact Hb].
      unfold no_body. now rewrite Htext.
  - intros H. destruct (IH H) as [before [s [after [r [-> [Hb H']]]]]].
    exists (sel :: before), s, after, r. split; [reflexivity|].
    split; [|exact H']. constructor; [|exact Hb].
    unfold no_body. now rewrite Htext.
Qed.

(** The body chain is ordered: it returns the stripped text of the first
    selector, in the order of the list, whose text is longer than 20; the
    selectors before it raised or gave a shorter text, the selectors after
    it are not consulted; it returns [None] exactly when every selector
    fails. *)
Theorem body_chain_takes_first_match :
  forall (card : Card) (sels : list string),
    (forall b,
        first_body card sels = Some b <->
        exists before sel after raw,
          sels = before ++ sel :: after /\ Forall (no_body card) before
          /\ inner_text card sel = Some raw /\ body_ok (strip raw) = true
          /\ b = strip raw)
    /\ (first_body card sels = None <-> Forall (no_body card) sels).
Proof.
  intros card sels. split; [|apply first_body_none].
  intros b. split; [apply first_body_some|].
  intros [before [sel [after [raw [-> [Hb [Htext [Hok ->]]]]]]]].
  rewrite (first_body_skips card before _ Hb). simpl.
  now rewrite Htext, Hok.
Qed.

Lemma first_text_skips (card : Card) (before rest : list string) :
  Forall (no_text card) before ->
  first_text card (before ++ rest) = first_text card rest.
Proof.
  induction 1 as [|sel before Hsel _ IH]; [reflexivity|].
  simpl. unfold no_text in Hsel.
  destruct (inner_text card sel) as [raw|]; [now rewrite Hsel | exact IH].
Qed.

Lemma first_text_none (card : Card) (sels : list string) :
  first_text card sels = None <-> Forall (no_text card) sels.
Proof.
  induction sels as [|sel rest IH]; simpl.
  - split; [constructor | reflexivity].
  - split.
    + intros H. constructor.
      * unfold no_text. destruct (inner_text card sel) as [raw|]; [|exact I].
        destruct (truthy (strip raw)); [discriminate | reflexivity].
      * apply IH. destruct (inner_text card sel) as [raw|]; [|exact H].
        destruct (truthy (strip raw)); [discriminate | exact H].
    + intros H. inversion H as [|x l Hsel Hrest]; subst. unfold no_text in Hsel.
      destruct (inner_text card sel) as [raw|]; [rewrite Hsel|]; now apply IH.
Qed.

(** The date-text chain is ordered in the same way: the text handed to
    [parse_any_date] is the stripped text of the first date selector that
    gives a non-empty one; when none does, the parser is not called and
    the container has no date. *)
Theorem date_chain_takes_first_text :
  forall (re_sub_reviewed_on : pystr -> pystr)
         (dateutil_parse : pystr -> option PyDate.date)
         (card : Card) (sels : list string),
    (forall before sel after raw,
        sels = before ++ sel :: after -> Forall (no_text card) before ->
        inner_text card sel = Some raw -> truthy (strip raw) = true ->
        card_date re_sub_reviewed_on dateutil_parse sels card
        = dateutil_parse (strip (re_sub_reviewed_on (strip (strip raw)))))
    /\ (Forall (no_text card) sels ->
        card_date re_sub_reviewed_on dateutil_parse sels card = None).
Proof.
  intros re du card sels. split.
  - intros before sel after raw -> Hb Htext Hok.
    unfold card_date. rewrite (first_text_skips card before _ Hb).
    simpl. rewrite Htext, Hok. cbn [or_empty]. rewrite Hok.
    unfold parse_any_date. now rewrite Hok.
  - intros H. unfold card_date.
    rewrite (proj2 (first_text_none card sels) H). reflexivity.
Qed.

Lemma date_chain_takes_first_text_witness :
  card_date Scenario.no_prefix Scenario.parse_iso g2_date_selectors
    Scenario.card_mar_10
  = Scenario.parse_iso
      (strip (Scenario.no_prefix (strip (strip (lit "2024-03-10"))))).
Proof.
  apply (proj1 (date_chain_takes_first_text Scenario.no_prefix
                  Scenario.parse_iso Scenario.card_mar_10 g2_date_selectors)
           [] "time"
           ["span:has-text('Reviewed on')"; "div:has-text('Reviewed on')"]
           (lit "2024-03-10"));
    try reflexivity.
  constructor.
Defined.

Lemma body_chain_takes_first_match_witness :
  first_body Scenario.card_mar_10 g2_body_selectors
  = Some (strip (lit "Great tool, it saved our team many hours.")).
Proof.
  apply (proj2 (proj1 (body_chain_takes_first_match Scenario.card_mar_10
                         g2_body_selectors) _)).
  exists [ "div[itemprop='reviewBody']"; "[data-testid*='review-text']";
           "div[class*='reviewBody']"; "div[class*='review-body']" ],
         "p", [], (lit "Great tool, it saved our team many hours.").
  split; [reflexivity|]. split; [repeat constructor|].
  repeat split.
Defined.

Lemma truthy_of_body_ok (t : pystr) : body_ok t = true -> truthy t = true.
Proof. unfold body_ok. intros H. now apply andb_true_iff in H. Qed.

Lemma date_leb_not_ltb (a b : PyDate.date) :
  PyDate.leb a b = true -> PyDate.ltb b a = false.
Proof. intros H. by_date_order. Qed.

Lemma date_leb_refl (a : PyDate.date) : PyDate.leb a a = true.
Proof. by_date_order. Qed.

Lemma date_leb_trans (a b c : PyDate.date) :
  PyDate.leb a b = true -> PyDate.leb b c = true -> PyDate.leb a c = true.
Proof. intros H1 H2. by_date_order. Qed.

Section Acceptance.

Variable re_sub_reviewed_on : pystr -> pystr.
Variable dateutil_parse : pystr -> option PyDate.date.
Variables start_d end_d : PyDate.date.

Local Abbreviation card_date' := (card_date re_sub_reviewed_on dateutil_parse).
Local Abbreviation g2_card' := (g2_card re_sub_reviewed_on dateutil_parse start_d end_d).
Local Abbreviation tr_card' := (tr_card re_sub_reviewed_on dateutil_parse start_d end_d).
Local Abbreviation g2_emit' := (g2_emit re_sub_reviewed_on dateutil_parse start_d end_d).
Local Abbreviation tr_emit' := (tr_emit re_sub_reviewed_on dateutil_parse start_d end_d).

(** A container becomes a record exactly when its body chain finds a body
    and its parsed date lies in the window; the title and the rating are
    copied into the record and never decide.  This holds in [scrape_g2],
    where the test for older dates comes first, and in
    [scrape_trustradius], whose records carry no rating. *)
Theorem record_needs_body_and_date_only :
  forall (card : Card),
    g2_emit' card
    = match first_body card g2_body_selectors,
            card_date' g2_date_selectors card with
      | Some b, Some d =>
          if PyDate.leb start_d d && PyDate.leb d end_d
          then [mkReview (lit "G2") (card_title card) b (PyDate.isoformat d)
                  (rating_chain card g2_rating_selectors None)]
          else []
      | _, _ => []
      end
    /\ tr_emit' card
       = match first_body card tr_body_selectors,
               card_date' tr_date_selectors card with
         | Some b, Some d =>
             if PyDate.leb start_d d && PyDate.leb d end_d
             then [mkReview (lit "TrustRadius") (card_title card) b
                     (PyDate.isoformat d) None]
             else []
         | _, _ => []
         end.
Proof.
  intros card. split.
  - unfold g2_emit, g2_card.
    destruct (first_body card g2_body_selectors) as [b|] eqn:Hb;
      destruct (card_date' g2_date_selectors card) as [d|] eqn:Hd;
      cbn [older in_range truthy_opt present iso andb collected app].
    + rewrite (truthy_of_body_ok b (first_body_ok _ _ _ Hb)). cbn [andb].
      destruct (PyDate.ltb d start_d) eqn:Hold.
      * now rewrite (older_is_out _ _ Hold).
      * destruct (PyDate.leb start_d d && PyDate.leb d end_d); reflexivity.
    + rewrite andb_false_r. reflexivity.
    + destruct (PyDate.ltb d start_d); reflexivity.
    + reflexivity.
  - unfold tr_emit, tr_card.
    destruct (first_body card tr_body_selectors) as [b|] eqn:Hb;
      destruct (card_date' tr_date_selectors card) as [d|] eqn:Hd;
      cbn [in_range truthy_opt present iso andb collected app].
    + rewrite (truthy_of_body_ok b (first_body_ok _ _ _ Hb)). cbn [andb].
      destruct (PyDate.leb start_d d && PyDate.leb d end_d); reflexivity.
    + rewrite andb_false_r. reflexivity.
    + reflexivity.
    + reflexivity.
Qed.

(** A container without a parsed date, because no date selector gave text
    or because the text did not parse, leaves the loop state of either
    scraper untouched: no record, and no stop flag in [scrape_g2], whatever
    its body. *)
Theorem undated_container_changes_nothing :
  forall (st : LoopState) (card : Card),
    (card_date' g2_date_selectors card = None -> g2_card' st card = st)
    /\ (card_date' tr_date_selectors card = None -> tr_card' st card = st)
    /\ (Forall (no_text card) g2_date_selectors -> g2_card' st card = st)
    /\ (Forall (no_text card) tr_date_selectors -> tr_card' st card = st).
Proof.
  intros st card.
  assert (Hg : card_date' g2_date_selectors card = None -> g2_card' st card = st).
  { intros H. unfold g2_card. rewrite H. cbn [older in_range].
    now rewrite andb_false_r. }
  assert (Ht : card_date' tr_date_selectors card = None -> tr_card' st card = st).
  { intros H. unfold tr_card. rewrite H. cbn [in_range].
    now rewrite andb_false_r. }
  split; [exact Hg|]. split; [exact Ht|]. split; intros H.
  - apply Hg. unfold card_date.
    now rewrite (proj2 (first_text_none card g2_date_selectors) H).
  - apply Ht. unfold card_date.
    now rewrite (proj2 (first_text_none card tr_date_selectors) H).
Qed.

(** The window is closed at both ends: with [start_d <= end_d], a
    container with a body that is dated exactly [start_d] or exactly
    [end_d] is recorded by [scrape_g2] and does not set the stop flag. *)
Theorem window_ends_are_included :
  forall (st : LoopState) (card : Card) (b : pystr) (d : PyDate.date),
    PyDate.leb start_d end_d = true ->
    first_body card g2_body_selectors = Some b ->
    card_date' g2_date_selectors card = Some d ->
    d = start_d \/ d = end_d ->
    g2_card' st card
    = mkState (stop_due_to_old st)
        (collected st ++
         [mkReview (lit "G2") (card_title card) b (PyDate.isoformat d)
            (rating_chain card g2_rating_selectors None)])
        (log st).
Proof.
  intros st card b d Hw Hb Hd Hend. unfold g2_card. rewrite Hb, Hd.
  cbn [older in_range truthy_opt present iso].
  rewrite (truthy_of_body_ok b (first_body_ok _ _ _ Hb)). cbn [andb].
  assert (H : PyDate.leb start_d d = true /\ PyDate.leb d end_d = true).
  { destruct Hend as [-> | ->]; split; auto using date_leb_refl. }
  destruct H as [H1 H2].
  now rewrite (date_leb_not_ltb _ _ H1), H1, H2.
Qed.

End Acceptance.

Lemma undated_container_changes_nothing_witness :
  card_date Scenario.no_prefix Scenario.parse_iso g2_date_selectors
    Scenario.card_undated = None
  /\ g2_card Scenario.no_prefix Scenario.parse_iso Scenario.jan_1
       Scenario.mar_31 initial Scenario.card_undated = initial.
Proof.
  split; [reflexivity|].
  apply (proj1 (undated_container_changes_nothing Scenario.no_prefix
                  Scenario.parse_iso Scenario.jan_1 Scenario.mar_31 initial
                  Scenario.card_undated)).
  reflexivity.
Defined.

Lemma window_ends_are_included_witness :
  PyDate.leb (PyDate.mkdate 2024 3 10) Scenario.mar_31 = true
  /\ g2_card Scenario.no_prefix Scenario.parse_iso (PyDate.mkdate 2024 3 10)
       Scenario.mar_31 initial Scenario.card_mar_10
     = mkState false
         [mkReview (lit "G2") (card_title Scenario.card_mar_10)
            (lit "Great tool, it saved our team many hours.")
            (PyDate.isoformat (PyDate.mkdate 2024 3 10))
            (rating_chain Scenario.card_mar_10 g2_rating_selectors None)]
         [].
Proof.
  split; [reflexivity|].
  apply (window_ends_are_included Scenario.no_prefix Scenario.parse_iso
           (PyDate.mkdate 2024 3 10) Scenario.mar_31 initial
           Scenario.card_mar_10
           (lit "Great tool, it saved our team many hours.")
           (PyDate.mkdate 2024 3 10));
    try reflexivity.
  left. reflexivity.
Defined.

(** The rating of a G2 record, in closed form.  The text of the rating
    [span], when the element is there and its stripped text is not empty,
    is the rating and the [meta] element is not read.  Otherwise the
    [content] attribute of the [meta] element, when the element is there
    and the read does not raise, is the rating, also when the attribute is
    missing or empty; failing that, the rating is what the [span] gave: an
    empty string if it was read, [None] if not. *)
Theorem rating_prefers_span_then_meta :
  forall (card : Card),
    let span := "span[itemprop='ratingValue']" in
    let meta := "meta[itemprop='ratingValue']" in
    let first :=
      match first_count card span with
      | Some (S _) => option_map strip (inner_text card span)
      | _ => None
      end in
    let second :=
      match first_count card meta with
      | Some (S _) => get_attribute card meta "content"
      | _ => None
      end in
    rating_chain card g2_rating_selectors None
    = if truthy_opt first then first
      else match second with
           | Some r => r
           | None => first
           end.
Proof.
  intros card span meta first second. subst first second.
  unfold g2_rating_selectors. fold span. fold meta.
  assert (Hspan : contains (lit "meta") (lit span) = false) by reflexivity.
  assert (Hmeta : contains (lit "meta") (lit meta) = true) by reflexivity.
  unfold rating_chain. rewrite Hspan, Hmeta.
  destruct (first_count card span) as [[|n]|];
    destruct (first_count card meta) as [[|m]|];
    try destruct (inner_text card span) as [raw|];
    try destruct (get_attribute card meta "content") as [r|];
    cbn [option_map truthy_opt];
    try destruct (truthy (strip raw)) eqn:E1;
    try destruct (truthy_opt r) eqn:E2;
    try reflexivity.
Qed.

(* ================================================================== *)
(** ** Stripped texts *)
(* ================================================================== *)

Lemma lstrip_idempotent (s : pystr) : lstrip (lstrip s) = lstrip s.
Proof.
  induction s as [|c r IH]; [reflexivity|]. simpl.
  destruct (py_isspace c) eqn:E; [exact IH|]. simpl. now rewrite E.
Qed.

Lemma lstrip_suffix (s : pystr) : exists w, s = w ++ lstrip s.
Proof.
  induction s as [|c r [w IH]]; [now exists []|]. simpl.
  destruct (py_isspace c).
  - exists (c :: w). simpl. now rewrite <- IH.
  - now exists [].
Qed.

Lemma lstrip_length (s : pystr) : List.length (lstrip s) <= List.length s.
Proof.
  destruct (lstrip_suffix s) as [w H]. rewrite H at 2.
  rewrite length_app. lia.
Qed.

Lemma lstrip_fixed_head (c : N) (r : pystr) :
  lstrip (c :: r) = c :: r -> py_isspace c = false.
Proof.
  simpl. destruct (py_isspace c); [|reflexivity].
  intros H. pose proof (lstrip_length r) as Hl. rewrite H in Hl.
  simpl in Hl. lia.
Qed.

Lemma rstrip_prefix (s : pystr) : exists w, s = rstrip s ++ w.
Proof.
  unfold rstrip. destruct (lstrip_suffix (List.rev s)) as [w H].
  exists (List.rev w). rewrite <- rev_app_distr, <- H. now rewrite rev_involutive.
Qed.

Lemma rstrip_idempotent (s : pystr) : rstrip (rstrip s) = rstrip s.
Proof.
  unfold rstrip. now rewrite rev_involutive, lstrip_idempotent.
Qed.

Lemma lstrip_of_rstrip (t : pystr) :
  lstrip t = t -> lstrip (rstrip t) = rstrip t.
Proof.
  intros Ht. destruct (rstrip_prefix t) as [w Hw].
  destruct (rstrip t) as [|c p] eqn:E; [reflexivity|].
  rewrite Hw in Ht. cbn [app] in Ht. apply lstrip_fixed_head in Ht.
  simpl. now rewrite Ht.
Qed.

Lemma strip_has_clean_ends (s : pystr) :
  lstrip (strip s) = strip s /\ rstrip (strip s) = strip s.
Proof.
  unfold strip. split.
  - apply lstrip_of_rstrip, lstrip_idempotent.
  - apply rstrip_idempotent.
Qed.

Lemma strip_idempotent (s : pystr) : strip (strip s) = strip s.
Proof.
  destruct (strip_has_clean_ends s) as [H1 H2].
  unfold strip at 1. now rewrite H1, H2.
Qed.

Lemma card_title_stripped (card : Card) :
  strip (card_title card) = card_title card.
Proof.
  unfold card_title. destruct (inner_text card "h3");
    [apply strip_idempotent | reflexivity].
Qed.

Lemma first_body_stripped (card : Card) (sels : list string) (b : pystr) :
  first_body card sels = Some b -> strip b = b.
Proof.
  intros H. apply first_body_some in H.
  destruct H as [_ [_ [_ [raw [_ [_ [_ [_ ->]]]]]]]]. apply strip_idempotent.
Qed.

Section Trimmed.

Variable lower_nonascii : pystr -> N -> pystr -> pystr.
Variable re_sub_reviewed_on : pystr -> pystr.
Variable dateutil_parse : pystr -> option PyDate.date.
Variable web : Web.
Variables start_d end_d : PyDate.date.

(** The texts of the output are trimmed and tagged: in every record of a
    G2 or TrustRadius run the body and the title are unchanged by
    [strip()], that is they neither start nor end with white space, and
    the source field names the scraper. *)
Theorem output_is_trimmed_and_tagged :
  forall (company : pystr) (max_pages : Z) (debug_html headless : bool) (slow_mo : Z),
    Forall (fun r => strip (review r) = review r /\ strip (title r) = title r
                     /\ source r = lit "G2")
      (collected (final (scrape_g2 lower_nonascii re_sub_reviewed_on
                           dateutil_parse web start_d end_d company max_pages
                           debug_html headless slow_mo)))
    /\ Forall (fun r => strip (review r) = review r /\ strip (title r) = title r
                        /\ source r = lit "TrustRadius")
         (collected (final (scrape_trustradius re_sub_reviewed_on
                              dateutil_parse web start_d end_d company
                              max_pages debug_html headless slow_mo))).
Proof.
  intros company max_pages dbg hl sm. split.
  - apply g2_run_records. intros card.
    destruct (g2_emit_cases re_sub_reviewed_on dateutil_parse start_d end_d card)
      as [-> | [b [d [Hb [_ [_ [_ [_ ->]]]]]]]]; constructor; [|constructor].
    cbn [review title source]. split; [exact (first_body_stripped card _ b Hb)|].
    split; [apply card_title_stripped | reflexivity].
  - apply tr_run_records. intros card.
    destruct (tr_emit_cases re_sub_reviewed_on dateutil_parse start_d end_d card)
      as [-> | [b [d [Hb [_ [_ [_ ->]]]]]]]; constructor; [|constructor].
    cbn [review title source]. split; [exact (first_body_stripped card _ b Hb)|].
    split; [apply card_title_stripped | reflexivity].
Qed.

End Trimmed.

(* ================================================================== *)
(** ** Further properties of the runs *)
(* ================================================================== *)

Lemma page_loop_collects (f : Z -> list ReviewRecord)
    (page : Z -> LoopState -> LoopState * option Exit) :
  (forall n st,
      collected (fst (page n st)) = collected st ++ f n
      /\ fetched (log (fst (page n st))) = fetched (log st) ++ [n]) ->
  forall pages st, exists visited,
      fetched (log (final (page_loop page pages st))) = fetched (log st) ++ visited
      /\ collected (final (page_loop page pages st))
         = collected st ++ flat_map f visited.
Proof.
  intros Hpage pages. induction pages as [|n rest IH]; intros st.
  - exists []. simpl. now rewrite !app_nil_r.
  - destruct (Hpage n st) as [Hc Hf]. simpl.
    destruct (page n st) as [st' [e|]]; cbn [fst] in *.
    + exists [n]. cbn [final flat_map]. now rewrite app_nil_r.
    + destruct (IH st') as [visited [Hf' Hc']].
      exists (n :: visited). cbn [flat_map].
      rewrite Hf', Hc', Hf, Hc, <- !app_assoc. auto.
Qed.

Lemma page_loop_full (page : Z -> LoopState -> LoopState * option Exit) :
  (forall n st e, snd (page n st) = Some e -> e <> MAX_PAGES) ->
  (forall n st, fetched (log (fst (page n st))) = fetched (log st) ++ [n]) ->
  forall pages st,
    exit (page_loop page pages st) = MAX_PAGES ->
    fetched (log (final (page_loop page pages st))) = fetched (log st) ++ pages.
Proof.
  intros Hexit Hf pages. induction pages as [|n rest IH]; intros st; simpl.
  - intros _. now rewrite app_nil_r.
  - specialize (Hexit n st). specialize (Hf n st).
    destruct (page n st) as [st' [e|]]; cbn [fst snd final exit] in *.
    + intros ->. now destruct (Hexit MAX_PAGES eq_refl).
    + intros H. rewrite (IH st' H), Hf, <- app_assoc. reflexivity.
Qed.

Section Runs.

Variable lower_nonascii : pystr -> N -> pystr -> pystr.
Variable re_sub_reviewed_on : pystr -> pystr.
Variable dateutil_parse : pystr -> option PyDate.date.
Variable web : Web.
Variables start_d end_d : PyDate.date.

Local Abbreviation card_date' := (card_date re_sub_reviewed_on dateutil_parse).
Local Abbreviation g2_card' := (g2_card re_sub_reviewed_on dateutil_parse start_d end_d).
Local Abbreviation g2_emit' := (g2_emit re_sub_reviewed_on dateutil_parse start_d end_d).
Local Abbreviation tr_emit' := (tr_emit re_sub_reviewed_on dateutil_parse start_d end_d).
Local Abbreviation g2_page' :=
  (g2_page lower_nonascii re_sub_reviewed_on dateutil_parse web start_d end_d).
Local Abbreviation tr_page' :=
  (tr_page re_sub_reviewed_on dateutil_parse web start_d end_d).
Local Abbreviation scrape_g2' :=
  (scrape_g2 lower_nonascii re_sub_reviewed_on dateutil_parse web start_d end_d).
Local Abbreviation scrape_trustradius' :=
  (scrape_trustradius re_sub_reviewed_on dateutil_parse web start_d end_d).
Local Abbreviation g2_page_records' :=
  (g2_page_records lower_nonascii re_sub_reviewed_on dateutil_parse web
     start_d end_d).
Local Abbreviation tr_page_records' :=
  (tr_page_records re_sub_reviewed_on dateutil_parse web start_d end_d).
Local Abbreviation blocked' := (detect_blocked lower_nonascii).

Lemma g2_page_fetched base n st :
  fetched (log (fst (g2_page' base n st))) = fetched (log st) ++ [n].
Proof.
  destruct (g2_page_adds lower_nonascii re_sub_reviewed_on dateutil_parse web
              start_d end_d (fun _ => True) base
              (fun c => proj2 (Forall_forall _ _) (fun _ _ => I)) n st)
    as [added [_ [_ [_ H]]]].
  exact H.
Qed.

Lemma tr_page_fetched base n st :
  fetched (log (fst (tr_page' base n st))) = fetched (log st) ++ [n].
Proof.
  destruct (tr_page_adds re_sub_reviewed_on dateutil_parse web
              start_d end_d (fun _ => True) base
              (fun c => proj2 (Forall_forall _ _) (fun _ _ => I)) n st)
    as [added [_ [_ [_ H]]]].
  exact H.
Qed.

Lemma g2_page_collects base n st :
  collected (fst (g2_page' base n st)) = collected st ++ g2_page_records' base n.
Proof.
  rewrite g2_page_cases. unfold g2_page_records.
  destruct (g2_navigate_keeps web (page_url base n)
              (say [Fetching SiteG2 n (page_url base n)] st)) as [Hc _].
  cbn [say collected] in Hc.
  destruct (g2_reaches _); cbn [andb fst];
    [|now rewrite Hc, app_nil_r].
  destruct (blocked' _); cbn [negb andb fst say collected];
    [now rewrite Hc, app_nil_r|].
  destruct (probe _ _); cbn [fst say collected];
    [|now rewrite Hc, app_nil_r].
  destruct (stop_due_to_old _); cbn [fst say collected];
    now rewrite g2_cards_collected, Hc.
Qed.

Lemma tr_page_collects base n st :
  collected (fst (tr_page' base n st)) = collected st ++ tr_page_records' base n.
Proof.
  unfold tr_page, tr_page_records.
  destruct (goto _ _); cbn [fst say collected]; try now rewrite app_nil_r.
  destruct (locator_all _ _) as [|c cs] eqn:E; cbn [fst say collected].
  - now rewrite app_nil_r.
  - now rewrite tr_cards_collected.
Qed.

(** The output is the pages in order: the list a run has collected is the
    concatenation, over the pages it announced and in that order, of the
    records of each page, which are those of its processed containers in
    document order (none for a page that was not reached, was blocked or
    showed no container).  Records of earlier pages are kept whatever ends
    the run. *)
Theorem output_is_pages_in_order :
  forall (company : pystr) (max_pages : Z) (debug_html headless : bool) (slow_mo : Z),
    let g2_run := scrape_g2' company max_pages debug_html headless slow_mo in
    let tr_run := scrape_trustradius' company max_pages debug_html headless slow_mo in
    collected (final g2_run)
    = flat_map
        (g2_page_records'
           (lit "https://www.g2.com/products/" ++ company ++ lit "/reviews"))
        (fetched (log (final g2_run)))
    /\ collected (final tr_run)
       = flat_map
           (tr_page_records'
              (lit "https://www.trustradius.com/products/" ++ company
               ++ lit "/reviews"))
           (fetched (log (final tr_run))).
Proof.
  intros company max_pages dbg hl sm g2_run tr_run. split.
  - subst g2_run. unfold scrape_g2.
    destruct (page_loop_collects
                (g2_page_records'
                   (lit "https://www.g2.com/products/" ++ company ++ lit "/reviews"))
                (g2_page'
                   (lit "https://www.g2.com/products/" ++ company ++ lit "/reviews"))
                (fun n st => conj (g2_page_collects _ n st) (g2_page_fetched _ n st))
                (py_range 1 (max_pages + 1)) initial) as [visited [Hf Hc]].
    rewrite Hf, Hc. reflexivity.
  - subst tr_run. unfold scrape_trustradius.
    destruct (page_loop_collects
                (tr_page_records'
                   (lit "https://www.trustradius.com/products/" ++ company
                    ++ lit "/reviews"))
                (tr_page'
                   (lit "https://www.trustradius.com/products/" ++ company
                    ++ lit "/reviews"))
                (fun n st => conj (tr_page_collects _ n st) (tr_page_fetched _ n st))
                (py_range 1 (max_pages + 1)) initial) as [visited [Hf Hc]].
    rewrite Hf, Hc. reflexivity.
Qed.

Lemma g2_loop_flag base pages st :
  stop_due_to_old st = false ->
  (stop_due_to_old (final (page_loop (g2_page' base) pages st)) = true
   <-> exit (page_loop (g2_page' base) pages st) = DATE_BOUNDARY).
Proof.
  revert st. induction pages as [|n rest IH]; intros st Hs.
  - simpl. rewrite Hs. split; discriminate.
  - cbn [page_loop]. rewrite g2_page_cases.
    destruct (g2_navigate_keeps web (page_url base n)
                (say [Fetching SiteG2 n (page_url base n)] st)) as [_ [Hf _]].
    cbn [say stop_due_to_old] in Hf. rewrite Hs in Hf.
    destruct (g2_reaches _);
      [|cbn [final exit]; rewrite Hf; split; discriminate].
    destruct (blocked' _);
      [cbn [final exit say stop_due_to_old]; rewrite Hf; split; discriminate|].
    destruct (probe _ _);
      [|cbn [final exit say stop_due_to_old]; rewrite Hf; split; discriminate].
    destruct (stop_due_to_old (fold_left _ _ _)) eqn:E.
    + cbn [final exit say stop_due_to_old]. rewrite E. now split.
    + now apply IH.
Qed.

Lemma g2_page_exit base n st e :
  snd (g2_page' base n st) = Some e -> e <> MAX_PAGES.
Proof.
  rewrite g2_page_cases.
  destruct (g2_reaches _); [|intros H; injection H as <-; discriminate].
  destruct (blocked' _); [intros H; injection H as <-; discriminate|].
  destruct (probe _ _); [|intros H; injection H as <-; discriminate].
  destruct (stop_due_to_old _); intros H; [injection H as <-|]; discriminate.
Qed.

Lemma tr_page_exit_kind base n st e :
  snd (tr_page' base n st) = Some e -> e = NO_CONTAINERS \/ e = NAV_ERROR.
Proof.
  unfold tr_page. destruct (goto _ _);
    [destruct (locator_all _ _) | |]; cbn [snd]; intros H;
    try discriminate; injection H as <-; auto.
Qed.

(** How a G2 run ends shows in its state: the stop flag is set at the end
    exactly when the run ended at the date boundary; and a run of either
    scraper that ends by exhausting the page budget has announced every
    page of [range(1, max_pages + 1)]. *)
Theorem exit_matches_final_state :
  forall (company : pystr) (max_pages : Z) (debug_html headless : bool) (slow_mo : Z),
    let g2_run := scrape_g2' company max_pages debug_html headless slow_mo in
    let tr_run := scrape_trustradius' company max_pages debug_html headless slow_mo in
    (stop_due_to_old (final g2_run) = true <-> exit g2_run = DATE_BOUNDARY)
    /\ (exit g2_run = MAX_PAGES ->
        fetched (log (final g2_run)) = py_range 1 (max_pages + 1))
    /\ (exit tr_run = MAX_PAGES ->
        fetched (log (final tr_run)) = py_range 1 (max_pages + 1)).
Proof.
  intros company max_pages dbg hl sm g2_run tr_run. split; [|split].
  - apply g2_loop_flag. reflexivity.
  - intros H. subst g2_run. unfold scrape_g2 in *.
    apply (page_loop_full _ (g2_page_exit _) (g2_page_fetched _)) in H.
    exact H.
  - intros H. subst tr_run. unfold scrape_trustradius in *.
    apply page_loop_full in H; [exact H | | apply tr_page_fetched].
    intros n st e He. destruct (tr_page_exit_kind _ _ _ _ He) as [-> | ->];
      discriminate.
Qed.

(** A window given the wrong way round is accepted and yields nothing:
    when [end_d] is before [start_d], no date is in range, and the output
    of a run of either scraper is empty whatever the pages show. *)
Theorem inverted_window_yields_nothing :
  PyDate.ltb end_d start_d = true ->
  forall (company : pystr) (max_pages : Z) (debug_html headless : bool) (slow_mo : Z),
    collected (final (scrape_g2' company max_pages debug_html headless slow_mo)) = []
    /\ collected (final (scrape_trustradius' company max_pages debug_html
                           headless slow_mo)) = [].
Proof.
  intros Hinv company max_pages dbg hl sm.
  assert (Hempty : forall d, PyDate.leb start_d d = true ->
                             PyDate.leb d end_d = true -> False).
  { intros d H1 H2. pose proof (date_leb_trans _ _ _ H1 H2) as H.
    apply date_leb_not_ltb in H. congruence. }
  assert (Hnil : forall l : list ReviewRecord, Forall (fun _ => False) l -> l = []).
  { intros l H. destruct H as [|r l Hr _]; [reflexivity | contradiction]. }
  split; apply Hnil.
  - apply g2_run_records. intros card.
    destruct (g2_emit_cases re_sub_reviewed_on dateutil_parse start_d end_d card)
      as [-> | [b [d [_ [_ [_ [H1 [H2 _]]]]]]]]; [constructor|].
    destruct (Hempty d H1 H2).
  - apply tr_run_records. intros card.
    destruct (tr_emit_cases re_sub_reviewed_on dateutil_parse start_d end_d card)
      as [-> | [b [d [_ [_ [H1 [H2 _]]]]]]]; [constructor|].
    destruct (Hempty d H1 H2).
Qed.

(** The blocked-page test is on the whole markup: a G2 page that was
    reached and whose markup holds one of the indicator phrases anywhere,
    in any letter case, ends the run as BLOCKED; nothing of that page is
    collected, whatever containers it shows, what was collected before is
    kept, and no later page is announced. *)
Theorem page_with_indicator_phrase_ends_run :
  forall (base : pystr) (page_no : Z) (rest : list Z) (st : LoopState)
         (n : string) (v : pystr),
    let view := web (page_url base page_no) in
    let run := page_loop (g2_page' base) (page_no :: rest) st in
    g2_reaches view = true ->
    In n needles -> any_case_of (lit n) v -> occurs v (content view) ->
    exit run = BLOCKED
    /\ collected (final run) = collected st
    /\ fetched (log (final run)) = fetched (log st) ++ [page_no].
Proof.
  intros base page_no rest st n v view run Hr Hin Hcase Hocc.
  pose proof (detect_blocked_any_case lower_nonascii _ n v Hin Hcase Hocc) as Hb.
  pose proof (g2_page_collects base page_no st) as Hc.
  pose proof (g2_page_fetched base page_no st) as Hf.
  unfold g2_page_records in Hc. fold view in Hc.
  rewrite Hr, Hb in Hc. cbn [negb andb] in Hc. rewrite app_nil_r in Hc.
  assert (He : snd (g2_page' base page_no st) = Some BLOCKED).
  { rewrite g2_page_cases. fold view. now rewrite Hr, Hb. }
  subst run. cbn [page_loop].
  destruct (g2_page' base page_no st) as [st' o]. cbn [fst snd] in *. subst o.
  cbn [final exit]. auto.
Qed.

End Runs.

Section Independence.

Variable re_sub_reviewed_on : pystr -> pystr.
Variable dateutil_parse : pystr -> option PyDate.date.
Variables start_d end_d : PyDate.date.

Local Abbreviation tr_page' :=
  (tr_page re_sub_reviewed_on dateutil_parse).
Local Abbreviation scrape_trustradius' :=
  (scrape_trustradius re_sub_reviewed_on dateutil_parse).


End Independence.

Lemma exit_matches_final_state_witness :
  exit (scrape_g2 Scenario.plain_lower Scenario.no_prefix Scenario.parse_iso
          Scenario.descending Scenario.jan_1 Scenario.mar_31 Scenario.slug 3
          false true 0) = DATE_BOUNDARY
  /\ stop_due_to_old
       (final (scrape_g2 Scenario.plain_lower Scenario.no_prefix
                 Scenario.parse_iso Scenario.descending Scenario.jan_1
                 Scenario.mar_31 Scenario.slug 3 false true 0)) = true.
Proof.
  assert (H : exit (scrape_g2 Scenario.plain_lower Scenario.no_prefix
                      Scenario.parse_iso Scenario.descending Scenario.jan_1
                      Scenario.mar_31 Scenario.slug 3 false true 0)
              = DATE_BOUNDARY) by (vm_compute; reflexivity).
  split; [exact H|].
  exact (proj2 (proj1 (exit_matches_final_state Scenario.plain_lower
                         Scenario.no_prefix Scenario.parse_iso
                         Scenario.descending Scenario.jan_1 Scenario.mar_31
                         Scenario.slug 3%Z false true 0%Z)) H).
Defined.

Lemma inverted_window_yields_nothing_witness :
  PyDate.ltb Scenario.jan_1 Scenario.mar_31 = true
  /\ collected (final (scrape_g2 Scenario.plain_lower Scenario.no_prefix
                         Scenario.parse_iso Scenario.descending
                         Scenario.mar_31 Scenario.jan_1 Scenario.slug 3
                         false true 0)) = [].
Proof.
  split; [reflexivity|].
  exact (proj1 (inverted_window_yields_nothing Scenario.plain_lower
                  Scenario.no_prefix Scenario.parse_iso Scenario.descending
                  Scenario.mar_31 Scenario.jan_1 eq_refl
                  Scenario.slug 3%Z false true 0%Z)).
Defined.

Lemma page_with_indicator_phrase_ends_run_witness :
  g2_reaches (Scenario.denied
                (page_url (lit "https://www.g2.com/products/slack/reviews") 1))
  = true
  /\ any_case_of (lit "Access Denied") (lit "Access Denied")
  /\ exit (page_loop
             (g2_page Scenario.plain_lower Scenario.no_prefix
                Scenario.parse_iso Scenario.denied Scenario.jan_1
                Scenario.mar_31 (lit "https://www.g2.com/products/slack/reviews"))
             [1%Z; 2%Z] initial) = BLOCKED.
Proof.
  assert (Hcase : any_case_of (lit "Access Denied") (lit "Access Denied")).
  { split; [repeat constructor | reflexivity]. }
  split; [reflexivity|]. split; [exact Hcase|].
  refine (proj1 (page_with_indicator_phrase_ends_run Scenario.plain_lower
                   Scenario.no_prefix Scenario.parse_iso Scenario.denied
                   Scenario.jan_1 Scenario.mar_31
                   (lit "https://www.g2.com/products/slack/reviews") 1%Z [2%Z]
                   initial "Access Denied" (lit "Access Denied")
                   eq_refl _ Hcase _)).
  - cbv [needles In]. tauto.
  - exists (lit "<html><h1>"), (lit "</h1></html>"). reflexivity.
Defined.


(* ================================================================== *)
(** ** Page addresses and dates as text *)
(* ================================================================== *)

Lemma lit_injective (s1 s2 : string) : lit s1 = lit s2 -> s1 = s2.
Proof.
  unfold lit. intros H.
  assert (Hl : list_ascii_of_string s1 = list_ascii_of_string s2).
  { revert H. generalize (list_ascii_of_string s1) (list_ascii_of_string s2).
    induction l as [|a l IH]; intros [|b l'] H; try discriminate; [reflexivity|].
    injection H as Hab H. f_equal; [|now apply IH].
    rewrite <- (ascii_N_embedding a), <- (ascii_N_embedding b). now rewrite Hab. }
  rewrite <- (string_of_list_ascii_of_string s1),
          <- (string_of_list_ascii_of_string s2).
  now rewrite Hl.
Qed.

Lemma str_of_int_injective (n m : Z) : str_of_int n = str_of_int m -> n = m.
Proof.
  unfold str_of_int. intros H. apply lit_injective in H.
  assert (Hn : forall z, NilZero.int_of_string (NilZero.string_of_int (Z.to_int z))
                         = Some (Z.to_int z)).
  { intros z. apply NilZero.isi; destruct z; simpl; try discriminate.
    - intros E. injection E as E. now apply DecimalPos.Unsigned.to_uint_nonnil in E.
    - intros E. injection E as E. now apply DecimalPos.Unsigned.to_uint_nonnil in E. }
  assert (E : Some (Z.to_int n) = Some (Z.to_int m)).
  { rewrite <- (Hn n), <- (Hn m). now rewrite H. }
  injection E as E. rewrite <- (DecimalZ.of_to n), <- (DecimalZ.of_to m).
  now rewrite E.
Qed.

Lemma page_url_injective (base : pystr) (n m : Z) :
  page_url base n = page_url base m -> n = m.
Proof.
  unfold page_url.
  destruct (Z.eqb_spec n 1) as [-> | Hn]; destruct (Z.eqb_spec m 1) as [-> | Hm];
    intros H.
  - reflexivity.
  - exfalso. apply (f_equal (@List.length N)) in H.
    rewrite !length_app in H. simpl in H. lia.
  - exfalso. apply (f_equal (@List.length N)) in H.
    rewrite !length_app in H. simpl in H. lia.
  - apply app_inv_head in H. apply app_inv_head in H.
    now apply str_of_int_injective.
Qed.

(** Every page has an address of its own: page 1 is the bare listing,
    page n the listing with "?page=n", and different page numbers give
    different URLs; so the addresses a run asks for, those of
    [range(1, max_pages + 1)], are pairwise different and no page is
    fetched twice. *)
Theorem page_urls_are_distinct :
  forall (base : pystr) (max_pages n m : Z),
    page_url base 1 = base
    /\ (n <> 1%Z -> page_url base n = base ++ lit "?page=" ++ str_of_int n)
    /\ (n <> m -> page_url base n <> page_url base m)
    /\ NoDup (map (page_url base) (py_range 1 (max_pages + 1))).
Proof.
  intros base max_pages n m. split; [reflexivity|]. split; [|split].
  - intros Hn. unfold page_url. destruct (Z.eqb_spec n 1); [contradiction|].
    reflexivity.
  - intros Hnm H. apply Hnm. now apply (page_url_injective base).
  - apply Finite.Injective_map_NoDup.
    + intros x y. apply page_url_injective.
    + rewrite py_range_pages. apply Finite.Injective_map_NoDup.
      * intros x y. apply Nat2Z.inj.
      * apply seq_NoDup.
Qed.

Lemma page_urls_are_distinct_witness :
  2%Z <> 3%Z
  /\ page_url (lit "https://www.g2.com/products/slack/reviews") 2
     <> page_url (lit "https://www.g2.com/products/slack/reviews") 3.
Proof.
  split; [discriminate|].
  apply (proj1 (proj2 (proj2 (page_urls_are_distinct
                                (lit "https://www.g2.com/products/slack/reviews")
                                3%Z 2%Z 3%Z)))).
  discriminate.
Defined.

Lemma zero_padded_four (y : nat) :
  (Z.of_nat y <= 9999)%Z ->
  exists a b c e,
    zero_padded 4 y = [a; b; c; e]
    /\ Scenario.number 0 [a; b; c; e] = Some y.
Proof.
  intros Hy.
  assert (Hall : forallb
            (fun y => match zero_padded 4 y with
                      | [a; b; c; e] =>
                          match Scenario.number 0 [a; b; c; e] with
                          | Some y' => Nat.eqb y' y
                          | None => false
                          end
                      | _ => false
                      end) (seq 0 (Z.to_nat 10000)) = true)
    by (vm_compute; reflexivity).
  rewrite forallb_forall in Hall. specialize (Hall y).
  assert (Hin : In y (seq 0 (Z.to_nat 10000))) by (apply in_seq; lia).
  specialize (Hall Hin).
  destruct (zero_padded 4 y) as [|a [|b [|c [|e [|x l]]]]]; try discriminate.
  exists a, b, c, e. split; [reflexivity|].
  destruct (Scenario.number 0 [a; b; c; e]) as [y'|]; [|discriminate].
  apply Nat.eqb_eq in Hall. now subst.
Qed.

Lemma zero_padded_two (k : nat) :
  k <= 31 ->
  exists a b,
    zero_padded 2 k = [a; b] /\ Scenario.number 0 [a; b] = Some k.
Proof.
  intros Hk.
  assert (Hall : forallb
            (fun k => match zero_padded 2 k with
                      | [a; b] =>
                          match Scenario.number 0 [a; b] with
                          | Some k' => Nat.eqb k' k
                          | None => false
                          end
                      | _ => false
                      end) (seq 0 32) = true)
    by (vm_compute; reflexivity).
  rewrite forallb_forall in Hall. specialize (Hall k).
  assert (Hin : In k (seq 0 32)) by (apply in_seq; lia).
  specialize (Hall Hin).
  destruct (zero_padded 2 k) as [|a [|b [|x l]]]; try discriminate.
  exists a, b. split; [reflexivity|].
  destruct (Scenario.number 0 [a; b]) as [k'|]; [|discriminate].
  apply Nat.eqb_eq in Hall. now subst.
Qed.

Lemma isoformat_shape (d : PyDate.date) :
  date_fields_ok d ->
  exists y1 y2 y3 y4 m1 m2 d1 d2,
    PyDate.isoformat d = [y1; y2; y3; y4; 45%N; m1; m2; 45%N; d1; d2]
    /\ Scenario.parse_iso (PyDate.isoformat d) = Some d.
Proof.
  intros [Hy [Hm Hd]]. destruct d as [y m dd]. cbn [PyDate.year PyDate.month PyDate.day] in *.
  destruct (zero_padded_four y Hy) as [y1 [y2 [y3 [y4 [Ey Ny]]]]].
  destruct (zero_padded_two m ltac:(lia)) as [m1 [m2 [Em Nm]]].
  destruct (zero_padded_two dd Hd) as [d1 [d2 [Ed Nd]]].
  exists y1, y2, y3, y4, m1, m2, d1, d2.
  unfold PyDate.isoformat. cbn [PyDate.year PyDate.month PyDate.day].
  rewrite Ey, Em, Ed.
  change (lit "-") with [45%N]. cbn [List.app].
  split; [reflexivity|].
  unfold Scenario.parse_iso. cbv beta iota. now rewrite Ny, Nm, Nd.
Qed.

(** The date of a record is written YYYY-MM-DD: for a date within the
    range of [datetime.date], [isoformat()] gives ten characters with the
    hyphens at the fifth and eighth place, and different dates give
    different texts, so the text of a record determines its date. *)
Theorem isoformat_fixes_the_date :
  forall (d d' : PyDate.date),
    date_fields_ok d -> date_fields_ok d' ->
    len (PyDate.isoformat d) = 10
    /\ nth 4 (PyDate.isoformat d) 0%N = 45%N
    /\ nth 7 (PyDate.isoformat d) 0%N = 45%N
    /\ (PyDate.isoformat d = PyDate.isoformat d' -> d = d').
Proof.
  intros d d' Hd Hd'.
  destruct (isoformat_shape d Hd) as [y1 [y2 [y3 [y4 [m1 [m2 [d1 [d2 [E P]]]]]]]]].
  destruct (isoformat_shape d' Hd') as [_ [_ [_ [_ [_ [_ [_ [_ [_ P']]]]]]]]].
  rewrite E. repeat split.
  rewrite <- E. intros H. rewrite H in P. rewrite P' in P. now injection P.
Qed.

Lemma isoformat_fixes_the_date_witness :
  date_fields_ok Scenario.jan_1 /\ date_fields_ok Scenario.mar_31
  /\ len (PyDate.isoformat Scenario.jan_1) = 10.
Proof.
  assert (H1 : date_fields_ok Scenario.jan_1).
  { unfold date_fields_ok. simpl. lia. }
  assert (H2 : date_fields_ok Scenario.mar_31).
  { unfold date_fields_ok. simpl. lia. }
  split; [exact H1|]. split; [exact H2|].
  exact (proj1 (isoformat_fixes_the_date Scenario.jan_1 Scenario.mar_31 H1 H2)).
Defined.

(* ================================================================== *)
(** ** Cookie banners *)
(* ================================================================== *)

Lemma accept_from_skips (page : Cookies.Buttons) (before rest : list string) :
  Forall (Cookies.unclickable page) before ->
  Cookies.clicked (Cookies.accept_from page (before ++ rest))
  = Cookies.clicked (Cookies.accept_from page rest).
Proof.
  induction 1 as [|sel before Hsel _ IH]; [reflexivity|].
  simpl. unfold Cookies.unclickable in Hsel.
  destruct (Cookies.button_count page sel) as [[|k]|]; try exact IH.
  rewrite Hsel. simpl. exact IH.
Qed.

Lemma accept_from_ends_with_click (page : Cookies.Buttons) (sels : list string) :
  Cookies.clicked (Cookies.accept_from page sels) = []
  \/ exists sel pre,
       Cookies.accept_from page sels
       = pre ++ [Cookies.Click sel true; Cookies.Pause]
       /\ Cookies.clicked pre = []
       /\ Cookies.clicked (Cookies.accept_from page sels) = [sel]
       /\ Cookies.click page sel = true.
Proof.
  induction sels as [|s rest IH]; [now left|]. simpl.
  destruct (Cookies.button_count page s) as [[|k]|]; try exact IH.
  destruct (Cookies.click page s) eqn:E.
  - right. exists s, []. simpl. repeat split; auto.
  - destruct IH as [IH | [sel [pre [H1 [H2 [H3 H4]]]]]]; [now left|].
    right. exists sel, (Cookies.Click s false :: pre). simpl.
    rewrite H1 in *. repeat split; auto.
Qed.

Lemma accept_from_tried (page : Cookies.Buttons) (sels : list string) :
  Forall (fun s => In s sels /\ exists k, Cookies.button_count page s = Some (S k))
    (Cookies.tried (Cookies.accept_from page sels)).
Proof.
  induction sels as [|s rest IH]; [constructor|]. simpl.
  assert (Hrest : Forall (fun s0 => (s = s0 \/ In s0 rest)
                                    /\ exists k, Cookies.button_count page s0 = Some (S k))
                    (Cookies.tried (Cookies.accept_from page rest))).
  { eapply Forall_impl; [|exact IH]. intros a [H1 H2]. auto. }
  destruct (Cookies.button_count page s) as [[|k]|] eqn:E; try exact Hrest.
  destruct (Cookies.click page s); simpl.
  - constructor; [|constructor]. split; [now left | now exists k].
  - constructor; [|exact Hrest]. split; [now left | now exists k].
Qed.

(** [accept_cookies_if_present] clicks at most one button: it tries only
    candidates that are on the page, in the order of the list; the first
    click that returns is followed by the pause and ends the function, so
    nothing is tried after it; a candidate whose click raises is passed
    over and the next one is tried; and with no candidate on the page
    nothing is done. *)
Theorem cookie_banner_gets_one_click :
  forall (page : Cookies.Buttons),
    let done := Cookies.accept_cookies_if_present page in
    List.length (Cookies.clicked done) <= 1
    /\ (forall sel,
          In sel (Cookies.clicked done) ->
          Cookies.click page sel = true
          /\ exists pre,
               done = pre ++ [Cookies.Click sel true; Cookies.Pause]
               /\ Cookies.clicked pre = [])
    /\ Forall (fun s => In s Cookies.candidates
                        /\ exists k, Cookies.button_count page s = Some (S k))
         (Cookies.tried done)
    /\ (forall before sel after k,
          Cookies.candidates = before ++ sel :: after ->
          Forall (Cookies.unclickable page) before ->
          Cookies.button_count page sel = Some (S k) ->
          Cookies.click page sel = true ->
          Cookies.clicked done = [sel])
    /\ (Forall (Cookies.unclickable page) Cookies.candidates ->
        Cookies.clicked done = []).
Proof.
  intros page done. subst done. unfold Cookies.accept_cookies_if_present.
  split; [|split; [|split; [|split]]].
  - destruct (accept_from_ends_with_click page Cookies.candidates)
      as [-> | [sel [pre [_ [_ [-> _]]]]]]; simpl; lia.
  - intros sel Hin.
    destruct (accept_from_ends_with_click page Cookies.candidates)
      as [E | [s [pre [H1 [H2 [H3 H4]]]]]].
    + rewrite E in Hin. contradiction.
    + rewrite H3 in Hin. destruct Hin as [<- | []].
      split; [exact H4|]. exists pre. split; [exact H1 | exact H2].
  - apply accept_from_tried.
  - intros before sel after k Hc Hb Hk Hclick.
    rewrite Hc, (accept_from_skips page before _ Hb). simpl.
    now rewrite Hk, Hclick.
  - intros Hall.
    rewrite <- (app_nil_r Cookies.candidates).
    now rewrite (accept_from_skips page Cookies.candidates [] Hall).
Qed.

Lemma cookie_banner_gets_one_click_witness :
  Cookies.clicked
    (Cookies.accept_cookies_if_present
       (Cookies.mkButtons
          (fun sel => if String.eqb sel "button:has-text('OK')" then Some 1
                      else Some 0)
          (fun _ => true)))
  = ["button:has-text('OK')"].
Proof.
  apply (proj1 (proj2 (proj2 (proj2
           (cookie_banner_gets_one_click
              (Cookies.mkButtons
                 (fun sel => if String.eqb sel "button:has-text('OK')"
                             then Some 1 else Some 0)
                 (fun _ => true))))))
           [ "button:has-text('Accept all')"; "button:has-text('Accept All')";
             "button:has-text('Accept')"; "button:has-text('I Agree')";
             "button:has-text('Agree')" ]
           "button:has-text('OK')"
           [ "button:has-text('Got it')"; "button:has-text('Allow all')" ]
           0);
    try reflexivity.
  repeat constructor.
Defined.

(* ================================================================== *)
(** ** The command line *)
(* ================================================================== *)

Section MainFacts.

Variable lower_nonascii : pystr -> N -> pystr -> pystr.
Variable re_sub_reviewed_on : pystr -> pystr.
Variable dateutil_parse : pystr -> option PyDate.date.
Variable strptime_ymd : pystr -> option PyDate.date.
Variable can_write : pystr -> bool.
Variable web : Web.

Local Abbreviation main' :=
  (Cli.main lower_nonascii re_sub_reviewed_on dateutil_parse strptime_ymd
     can_write web).
Local Abbreviation dispatch' :=
  (Cli.dispatch lower_nonascii re_sub_reviewed_on dateutil_parse web).

Lemma dispatch_records (args : Cli.Args) (start_d end_d : PyDate.date) :
  Forall (dated_within start_d end_d)
    (collected (final (dispatch' args start_d end_d)))
  /\ List.length (collected (final (dispatch' args start_d end_d)))
     <= 60 * Z.to_nat (Cli.max_pages args).
Proof.
  unfold Cli.dispatch. destruct (Cli.source args).
  - destruct (g2_run_records lower_nonascii re_sub_reviewed_on dateutil_parse
                web start_d end_d (dated_within start_d end_d)
                (Cli.company args) (Cli.max_pages args)
                (Cli.bool_of_int (Cli.debug_html args))
                (Cli.bool_of_int (Cli.headless args)) (Cli.slow_mo args)
                (g2_emit_dated _ _ _ _)) as [HP [k [_ [_ [_ Hlen]]]]].
    split; [exact HP | exact Hlen].
  - simpl. split; [constructor | lia].
  - destruct (tr_run_records re_sub_reviewed_on dateutil_parse
                web start_d end_d (dated_within start_d end_d)
                (Cli.company args) (Cli.max_pages args)
                (Cli.bool_of_int (Cli.debug_html args))
                (Cli.bool_of_int (Cli.headless args)) (Cli.slow_mo args)
                (tr_emit_dated _ _ _ _)) as [HP [k [_ [_ [_ Hlen]]]]].
    split; [exact HP | exact Hlen].
Qed.

Lemma returned_some (r : Run) (data : list ReviewRecord) :
  returned r = Some data -> data = collected (final r) /\ exit r <> NAV_ERROR.
Proof.
  unfold returned. destruct (exit r); intros H; try discriminate;
    injection H as <-; split; auto; discriminate.
Qed.

(** What [main] writes: when it saves a file, both dates of the command
    line parsed, "output" was not a non-directory, the file is
    [output/<company>_<source>_reviews.json], and the list written holds
    only records dated within the window of the command line, at most 60
    for each of [--max_pages] pages, and none for [capterra], for which
    no page is fetched. *)
Theorem saved_file_holds_window_records :
  forall (args : Cli.Args) (output : Cli.PathKind) (path : pystr)
         (data : list ReviewRecord) (events : list Event),
    main' args output = Cli.Saved path data events ->
    exists start_d end_d,
      strptime_ymd (Cli.start_date args) = Some start_d
      /\ strptime_ymd (Cli.end_date args) = Some end_d
      /\ output <> Cli.NotDirectory
      /\ path = lit "output/" ++ Cli.company args ++ lit "_"
                ++ Cli.source_name (Cli.source args) ++ lit "_reviews.json"
      /\ Forall (dated_within start_d end_d) data
      /\ List.length data <= 60 * Z.to_nat (Cli.max_pages args)
      /\ (Cli.source args = Cli.capterra -> data = [] /\ events = []).
Proof.
  intros args output path data events. unfold Cli.main.
  destruct (strptime_ymd (Cli.start_date args)) as [start_d|]; [|discriminate].
  destruct (strptime_ymd (Cli.end_date args)) as [end_d|]; [|discriminate].
  destruct (Cli.ensure_output_dir output) eqn:Edir; [|discriminate].
  destruct (returned _) as [got|] eqn:Eret; [|discriminate].
  destruct (can_write _); [|discriminate].
  intros H. injection H as <- <- <-.
  apply returned_some in Eret. destruct Eret as [-> _].
  destruct (dispatch_records args start_d end_d) as [HP Hlen].
  exists start_d, end_d. repeat split; auto.
  - intros ->. discriminate.
  - unfold Cli.dispatch. rewrite H. reflexivity.
  - unfold Cli.dispatch. rewrite H. reflexivity.
Qed.

(** The order of the checks in [main]: a date that does not parse ends the
    program before anything else; then a non-directory at "output" ends it
    with [sys.exit(1)]; in both cases no page has been fetched and nothing
    is written.  Only the G2 and TrustRadius scrapers can let an exception
    through, and then no file is written either.  For [capterra] the
    program, once past the checks, saves an empty list without fetching. *)
Theorem main_checks_before_it_fetches :
  forall (args : Cli.Args) (output : Cli.PathKind),
    (main' args output = Cli.BadDate <->
       strptime_ymd (Cli.start_date args) = None
       \/ strptime_ymd (Cli.end_date args) = None)
    /\ (main' args output = Cli.ExitOne <->
          strptime_ymd (Cli.start_date args) <> None
          /\ strptime_ymd (Cli.end_date args) <> None
          /\ output = Cli.NotDirectory)
    /\ (forall events,
          main' args output = Cli.Propagated events ->
          Cli.source args <> Cli.capterra /\ output <> Cli.NotDirectory)
    /\ (Cli.source args = Cli.capterra ->
        strptime_ymd (Cli.start_date args) <> None ->
        strptime_ymd (Cli.end_date args) <> None ->
        output <> Cli.NotDirectory ->
        can_write (Cli.output_file args) = true ->
        main' args output = Cli.Saved (Cli.output_file args) [] []).
Proof.
  intros args output. unfold Cli.main.
  destruct (strptime_ymd (Cli.start_date args)) as [start_d|].
  2:{ repeat split; try discriminate; auto.
      - intros [H _]. congruence.
      - intros _ H. congruence. }
  destruct (strptime_ymd (Cli.end_date args)) as [end_d|].
  2:{ repeat split; try discriminate; auto.
      - intros [_ [H _]]. congruence.
      - intros _ _ H. congruence. }
  destruct output; cbn [Cli.ensure_output_dir].
  2:{ repeat split; try discriminate; auto.
      - intros [H | H]; discriminate.
      - intros _ _ _ H. congruence. }
  all: split; [split; [|intros [H | H]; discriminate]|].
  all: try (destruct (returned _); [destruct (can_write _)|]; discriminate).
  all: split; [split; [|intros [_ [_ H]]; discriminate]|].
  all: try (destruct (returned _); [destruct (can_write _)|]; discriminate).
  all: split.
  all: try (intros events H; split; [|discriminate]; intros Hc;
            unfold Cli.dispatch in H; rewrite Hc in H;
            cbn [returned exit final collected] in H;
            destruct (can_write _); discriminate).
  all: intros Hc _ _ _ Hw; unfold Cli.dispatch; rewrite Hc;
    cbn [returned exit final collected log scrape_capterra]; now rewrite Hw.
Qed.

End MainFacts.

Lemma saved_file_holds_window_records_witness :
  let args := Cli.mkArgs Scenario.slug (lit "2024-01-01") (lit "2024-03-31")
                Cli.g2 3 0 1 0 in
  exists path data events,
    Cli.main Scenario.plain_lower Scenario.no_prefix Scenario.parse_iso
      Scenario.parse_iso (fun _ => true) Scenario.descending args Cli.Missing
    = Cli.Saved path data events
    /\ Forall (dated_within Scenario.jan_1 Scenario.mar_31) data.
Proof.
  intros args.
  assert (H : exists path data events,
             Cli.main Scenario.plain_lower Scenario.no_prefix Scenario.parse_iso
               Scenario.parse_iso (fun _ => true) Scenario.descending args
               Cli.Missing = Cli.Saved path data events).
  { vm_compute. eexists _, _, _. reflexivity. }
  destruct H as [path [data [events H]]].
  exists path, data, events. split; [exact H|].
  destruct (saved_file_holds_window_records Scenario.plain_lower
              Scenario.no_prefix Scenario.parse_iso Scenario.parse_iso
              (fun _ => true) Scenario.descending args Cli.Missing
              path data events H)
    as [s [e [Hs [He [_ [_ [HP _]]]]]]].
  vm_compute in Hs, He. injection Hs as <-. injection He as <-. exact HP.
Defined.

Lemma main_checks_before_it_fetches_witness :
  Cli.main Scenario.plain_lower Scenario.no_prefix Scenario.parse_iso
    Scenario.parse_iso (fun _ => true) Scenario.descending
    (Cli.mkArgs Scenario.slug (lit "2024-01-01") (lit "2024-03-31")
       Cli.g2 3 0 1 0)
    Cli.NotDirectory
  = Cli.ExitOne.
Proof.
  apply (proj2 (proj1 (proj2 (main_checks_before_it_fetches
                                Scenario.plain_lower Scenario.no_prefix
                                Scenario.parse_iso Scenario.parse_iso
                                (fun _ => true) Scenario.descending
                                (Cli.mkArgs Scenario.slug (lit "2024-01-01")
                                   (lit "2024-03-31") Cli.g2 3 0 1 0)
                                Cli.NotDirectory)))).
  repeat split; discriminate.
Defined.

(* ================================================================== *)
(** ** One page of G2, and what a run reads *)
(* ================================================================== *)

Lemma probe_spec (view : PageView) (sels : list string) :
  probe view sels = true <->
  exists sel k, In sel sels /\ locator_count view sel = Some (S k).
Proof.
  induction sels as [|s rest IH]; simpl.
  - split; [discriminate | intros [sel [k [[] _]]]].
  - destruct (locator_count view s) as [[|k]|] eqn:E.
    + rewrite IH. split.
      * intros [sel [k [Hin H]]]. exists sel, k. auto.
      * intros [sel [k [[<- | Hin] H]]]; [congruence | now exists sel, k].
    + split; [intros _; exists s, k; auto | reflexivity].
    + rewrite IH. split.
      * intros [sel [k [Hin H]]]. exists sel, k. auto.
      * intros [sel [k [[<- | Hin] H]]]; [congruence | now exists sel, k].
Qed.

Lemma probe_ext (view view' : PageView) (sels : list string) :
  (forall sel, In sel sels -> locator_count view sel = locator_count view' sel) ->
  probe view sels = probe view' sels.
Proof.
  induction sels as [|s rest IH]; intros H; simpl; [reflexivity|].
  rewrite <- (H s (or_introl eq_refl)).
  destruct (locator_count view s) as [[|k]|]; try reflexivity;
    apply IH; intros sel Hin; apply H; now right.
Qed.

Lemma processed_firstn (cards : list Card) :
  processed cards = firstn card_cap cards.
Proof.
  unfold processed. generalize card_cap as k. intros k. revert k.
  induction cards as [|c cards IH]; intros k.
  - now destruct k.
  - destruct k as [|k]; [reflexivity|]. cbn [List.length Nat.min firstn].
    now rewrite IH.
Qed.

Lemma stop_notices_app (l1 l2 : list Event) :
  stop_notices (l1 ++ l2) = stop_notices l1 ++ stop_notices l2.
Proof.
  induction l1 as [|e l1 IH]; simpl; [reflexivity|].
  destruct e; simpl; now rewrite IH.
Qed.

Section OnePage.

Variable lower_nonascii : pystr -> N -> pystr -> pystr.
Variable re_sub_reviewed_on : pystr -> pystr.
Variable dateutil_parse : pystr -> option PyDate.date.
Variable web : Web.
Variables start_d end_d : PyDate.date.

Local Abbreviation card_date' := (card_date re_sub_reviewed_on dateutil_parse).
Local Abbreviation g2_card' := (g2_card re_sub_reviewed_on dateutil_parse start_d end_d).
Local Abbreviation g2_page' :=
  (g2_page lower_nonascii re_sub_reviewed_on dateutil_parse web start_d end_d).
Local Abbreviation tr_page' :=
  (tr_page re_sub_reviewed_on dateutil_parse web start_d end_d).
Local Abbreviation scrape_g2' :=
  (scrape_g2 lower_nonascii re_sub_reviewed_on dateutil_parse web start_d end_d).
Local Abbreviation scrape_trustradius' :=
  (scrape_trustradius re_sub_reviewed_on dateutil_parse web start_d end_d).
Local Abbreviation blocked' := (detect_blocked lower_nonascii).

(** The decisions of one G2 page.  The page raises exactly when neither
    navigation reached it.  It is extracted when it was reached, its
    markup is not blocked and a container selector counted an element
    (a count that raises counts as none); an extracted page ends the run
    at the date boundary exactly when the stop flag is set after it, by an
    older container among those processed, and lets the loop continue
    otherwise. *)
Theorem g2_page_decision_table :
  forall (base : pystr) (page_no : Z) (st : LoopState),
    let view := web (page_url base page_no) in
    let cards := processed (locator_all view g2_cards_selector) in
    let out := snd (g2_page' base page_no st) in
    let extracted :=
      g2_reaches view && negb (blocked' (content view))
      && probe view candidate_waits in
    let older_seen :=
      stop_due_to_old st
      || existsb (fun c => older (card_date' g2_date_selectors c) start_d) cards in
    (out = Some NAV_ERROR <-> g2_reaches view = false)
    /\ (out = Some DATE_BOUNDARY <-> extracted = true /\ older_seen = true)
    /\ (out = None <-> extracted = true /\ older_seen = false)
    /\ (probe view candidate_waits = true <->
        exists sel k, In sel candidate_waits
                      /\ locator_count view sel = Some (S k)).
Proof.
  intros base page_no st view cards out extracted older_seen.
  subst out extracted older_seen.
  split; [apply g2_page_error|]. split; [|split; [|apply probe_spec]].
  all: rewrite g2_page_cases; fold view; fold cards.
  all: destruct (g2_navigate_keeps web (page_url base page_no)
                   (say [Fetching SiteG2 page_no (page_url base page_no)] st))
         as [_ [Hf _]]; cbn [say stop_due_to_old] in Hf.
  all: destruct (g2_reaches view); cbn [andb];
         [|split; [discriminate | intros [H _]; discriminate]].
  all: destruct (blocked' (content view)); cbn [negb andb];
         [split; [discriminate | intros [H _]; discriminate]|].
  all: destruct (probe view candidate_waits);
         [|split; [discriminate | intros [H _]; discriminate]].
  all: rewrite g2_cards_flag, Hf.
  all: destruct (stop_due_to_old st || existsb _ cards); cbn [snd];
         split; auto; try discriminate; intros [_ H]; discriminate.
Qed.

Lemma g2_page_notices base n st :
  stop_notices (log st) = [] ->
  stop_notices (log (fst (g2_page' base n st)))
  = match snd (g2_page' base n st) with
    | Some BLOCKED => [BlockedNotice]
    | Some NO_CONTAINERS => [NoContainersNotice n]
    | Some DATE_BOUNDARY => [OldNotice]
    | _ => []
    end.
Proof.
  intros Hst. rewrite g2_page_cases.
  set (url := page_url base n).
  assert (Hnav : stop_notices
                   (log (fst (g2_navigate web url (say [Fetching SiteG2 n url] st))))
                 = []).
  { unfold g2_navigate.
    destruct (goto (web url) DomContentLoaded);
      [| destruct (goto (web url) Load) |];
      cbn [fst say log]; rewrite !stop_notices_app, Hst; reflexivity. }
  destruct (g2_reaches _); [|exact Hnav].
  destruct (blocked' _);
    [cbn [fst snd say log]; now rewrite stop_notices_app, Hnav|].
  destruct (probe _ _);
    [|cbn [fst snd say log]; now rewrite stop_notices_app, Hnav].
  destruct (stop_due_to_old _); cbn [fst snd say log];
    rewrite ?stop_notices_app, g2_cards_log, Hnav; reflexivity.
Qed.

Lemma tr_page_notices base n st :
  stop_notices (log st) = [] ->
  stop_notices (log (fst (tr_page' base n st))) = [].
Proof.
  intros Hst. unfold tr_page.
  destruct (goto _ _); [destruct (locator_all _ _)| |];
    cbn [fst say log]; rewrite ?tr_cards_log; cbn [say log];
    rewrite stop_notices_app, Hst; reflexivity.
Qed.

Lemma g2_loop_notices base pages st :
  stop_notices (log st) = [] ->
  let run := page_loop (g2_page' base) pages st in
  stop_notices (log (final run))
  = match exit run with
    | BLOCKED => [BlockedNotice]
    | NO_CONTAINERS =>
        [NoContainersNotice (last (fetched (log (final run))) 0%Z)]
    | DATE_BOUNDARY => [OldNotice]
    | _ => []
    end.
Proof.
  revert st. induction pages as [|n rest IH]; intros st Hst; [exact Hst|].
  cbn [page_loop].
  pose proof (g2_page_notices base n st Hst) as Hn.
  pose proof (g2_page_fetched lower_nonascii re_sub_reviewed_on dateutil_parse
                web start_d end_d base n st) as Hf.
  destruct (g2_page' base n st) as [st' [e|]]; cbn [fst snd] in *.
  - cbn [final exit]. rewrite Hn, Hf, last_last.
    destruct e; reflexivity.
  - now apply IH.
Qed.

(** The notices tell how a run stopped.  A G2 run prints exactly one stop
    notice when it ends as blocked, without containers (naming the last
    page it announced) or at the date boundary, and none when it exhausts
    the page budget or raises.  A TrustRadius run never prints a stop
    notice: it stops silently. *)
Theorem stop_notices_match_exit :
  forall (company : pystr) (max_pages : Z) (debug_html headless : bool) (slow_mo : Z),
    let g2_run := scrape_g2' company max_pages debug_html headless slow_mo in
    let tr_run := scrape_trustradius' company max_pages debug_html headless slow_mo in
    stop_notices (log (final g2_run))
    = match exit g2_run with
      | BLOCKED => [BlockedNotice]
      | NO_CONTAINERS =>
          [NoContainersNotice (last (fetched (log (final g2_run))) 0%Z)]
      | DATE_BOUNDARY => [OldNotice]
      | MAX_PAGES | NAV_ERROR => []
      end
    /\ stop_notices (log (final tr_run)) = [].
Proof.
  intros company max_pages dbg hl sm g2_run tr_run. split.
  - subst g2_run. unfold scrape_g2.
    rewrite (g2_loop_notices _ _ initial eq_refl).
    destruct (exit _); reflexivity.
  - subst tr_run. unfold scrape_trustradius.
    apply (page_loop_keeps (fun s => stop_notices (log s) = []));
      [|reflexivity].
    intros n st. apply tr_page_notices.
Qed.

End OnePage.

Section Reads.

Variable lower_nonascii : pystr -> N -> pystr -> pystr.
Variable re_sub_reviewed_on : pystr -> pystr.
Variable dateutil_parse : pystr -> option PyDate.date.
Variables start_d end_d : PyDate.date.

Local Abbreviation g2_page' :=
  (g2_page lower_nonascii re_sub_reviewed_on dateutil_parse).
Local Abbreviation scrape_g2' :=
  (scrape_g2 lower_nonascii re_sub_reviewed_on dateutil_parse).

(** What [scrape_g2] reads of a page: the two navigations, the counts of
    the five container selectors, the markup, and the first 60 elements
    of the container locator.  Two webs that agree on these give the same
    run; in particular a container past the sixtieth is never recorded and
    never stops the run. *)
Theorem g2_reads_first_sixty_containers :
  forall (web web' : Web) (company : pystr) (max_pages : Z)
         (debug_html headless : bool) (slow_mo : Z),
    (forall url,
        (forall w, goto (web url) w = goto (web' url) w)
        /\ (forall sel, In sel candidate_waits ->
                        locator_count (web url) sel = locator_count (web' url) sel)
        /\ content (web url) = content (web' url)
        /\ firstn 60 (locator_all (web url) g2_cards_selector)
           = firstn 60 (locator_all (web' url) g2_cards_selector)) ->
    scrape_g2' web start_d end_d company max_pages debug_html headless slow_mo
    = scrape_g2' web' start_d end_d company max_pages debug_html headless slow_mo.
Proof.
  intros web web' company max_pages dbg hl sm Hsame. unfold scrape_g2.
  generalize (py_range 1 (max_pages + 1)) as pages.
  generalize initial as st.
  set (base := lit "https://www.g2.com/products/" ++ company ++ lit "/reviews").
  intros st pages. revert st.
  induction pages as [|n rest IH]; intros st; [reflexivity|].
  cbn [page_loop].
  assert (Hpage : g2_page' web start_d end_d base n st
                  = g2_page' web' start_d end_d base n st).
  { unfold g2_page, g2_navigate.
    destruct (Hsame (page_url base n)) as [Hgoto [Hcount [Hcontent Hcards]]].
    rewrite !Hgoto, Hcontent, (probe_ext _ _ _ Hcount).
    rewrite !processed_firstn. unfold card_cap. now rewrite Hcards. }
  rewrite Hpage.
  destruct (g2_page' web' start_d end_d base n st) as [st' [e|]];
    [reflexivity | apply IH].
Qed.

End Reads.

Section Lost.

Variable lower_nonascii : pystr -> N -> pystr -> pystr.
Variable re_sub_reviewed_on : pystr -> pystr.
Variable dateutil_parse : pystr -> option PyDate.date.
Variable strptime_ymd : pystr -> option PyDate.date.
Variable can_write : pystr -> bool.
Variable web : Web.


End Lost.

Lemma g2_page_decision_table_witness :
  snd (g2_page Scenario.plain_lower Scenario.no_prefix Scenario.parse_iso
         Scenario.newer_first Scenario.jan_1 Scenario.mar_31
         (lit "https://www.g2.com/products/slack/reviews") 1 initial)
  = None.
Proof.
  apply (proj2 (proj1 (proj2 (proj2
           (g2_page_decision_table Scenario.plain_lower Scenario.no_prefix
              Scenario.parse_iso Scenario.newer_first Scenario.jan_1
              Scenario.mar_31 (lit "https://www.g2.com/products/slack/reviews")
              1%Z initial))))).
  split; reflexivity.
Defined.

Lemma g2_reads_first_sixty_containers_witness :
  scrape_g2 Scenario.plain_lower Scenario.no_prefix Scenario.parse_iso
    (fun _ => Scenario.listing "<html>reviews</html>"
                (repeat Scenario.card_mar_10 60 ++ [Scenario.card_dec_15]))
    Scenario.jan_1 Scenario.mar_31 Scenario.slug 2 false true 0
  = scrape_g2 Scenario.plain_lower Scenario.no_prefix Scenario.parse_iso
      (fun _ => mkPageView (fun _ => NavOk) (fun _ => Some 61)
                  (lit "<html>reviews</html>")
                  (fun _ => repeat Scenario.card_mar_10 60))
      Scenario.jan_1 Scenario.mar_31 Scenario.slug 2 false true 0.
Proof.
  apply (g2_reads_first_sixty_containers Scenario.plain_lower
           Scenario.no_prefix Scenario.parse_iso Scenario.jan_1
           Scenario.mar_31).
  intros url. repeat split; reflexivity.
Defined.

